(** * Usage log store and analytics engine

    A shallow embedding of the TypeScript classes of the usage-logging
    document ([UsageLogger], [MetricsCalculator], [UsageAnalyzer],
    [BenchmarkComparator], [ReportGenerator]) and the properties stated
    about them.

    Conventions of the embedding:
    - a JavaScript Number is an IEEE-754 binary64 value, [spec_float] with
      precision 53 and maximal exponent 1024;
    - an array length, a [Map] counter and the result of [parseInt] are
      integers and are kept as [nat] or [Z] until they enter a division;
    - a [Date] is its time value, [option Z] milliseconds, [None] being the
      NaN time value of an invalid date; time values are integers that
      binary64 holds exactly, so dates are compared, and their difference
      taken, on the integers;
    - a field the interface types as [number] holds a Number, or [null]
      once it has been read back from JSON, or [undefined] when the caller
      left it out;
    - an abrupt completion (a thrown error, a rejected promise) is
      [Thrown] with the name of the error;
    - [async]/[await] is sequential composition: one caller at a time. *)

From Stdlib Require Import List String Ascii ZArith Bool Arith Lia.
From Stdlib Require Import Sorting.Sorted Sorting.Permutation.
From Stdlib Require Import Floats.SpecFloat.
Import ListNotations.

Local Open Scope string_scope.
Local Open Scope list_scope.

(** ** JavaScript numbers *)

Module Num.

Definition number : Type := spec_float.

Definition prec : Z := 53.
Definition emax : Z := 1024.

Definition ofZ (z : Z) : number := binary_normalize prec emax z 0 false.
Definition ofNat (n : nat) : number := ofZ (Z.of_nat n).

Definition NaN : number := S754_nan.
Definition zero : number := S754_zero false.

Definition add : number -> number -> number := SFadd prec emax.
Definition sub : number -> number -> number := SFsub prec emax.
Definition mul : number -> number -> number := SFmul prec emax.
Definition div : number -> number -> number := SFdiv prec emax.

(** [x < y] and [x > y]; both are false when an operand is NaN. *)
Definition ltb (x y : number) : bool := SFltb x y.
Definition gtb (x y : number) : bool := SFltb y x.

Definition isNaN (x : number) : bool :=
  match x with S754_nan => true | _ => false end.

(** [Number.isFinite]. *)
Definition isFinite (x : number) : bool :=
  match x with S754_zero _ | S754_finite _ _ _ => true | _ => false end.

(** [x === 0]: both signed zeros. *)
Definition isZero (x : number) : bool :=
  match x with S754_zero _ => true | _ => false end.

(** ToBoolean on a Number: 0, -0 and NaN are falsy. *)
Definition truthy (x : number) : bool := negb (isZero x || isNaN x).

End Num.

Import Num.

Declare Scope num_scope.
Delimit Scope num_scope with num.
Infix "+" := Num.add : num_scope.
Infix "-" := Num.sub : num_scope.
Infix "*" := Num.mul : num_scope.
Infix "/" := Num.div : num_scope.

(** ** Completions *)

Inductive Completion (A : Type) : Type :=
| Returned (a : A)
| Thrown (error : string).

Arguments Returned {A} a.
Arguments Thrown {A} error.

Definition bindC {A B} (c : Completion A) (k : A -> Completion B) : Completion B :=
  match c with
  | Returned a => k a
  | Thrown e => Thrown e
  end.

Fixpoint mapC {A B} (f : A -> Completion B) (l : list A) : Completion (list B) :=
  match l with
  | [] => Returned []
  | x :: xs =>
      bindC (f x) (fun y => bindC (mapC f xs) (fun ys => Returned (y :: ys)))
  end.

(** ** String built-ins *)

(** [s.split(sep)] for a one-character separator. *)
Fixpoint split (sep : ascii) (s : string) : list string :=
  match s with
  | EmptyString => [EmptyString]
  | String c rest =>
      if Ascii.eqb c sep then EmptyString :: split sep rest
      else match split sep rest with
           | [] => [String c EmptyString]
           | h :: t => String c h :: t
           end
  end.

Definition isWhiteSpace (c : ascii) : bool :=
  let n := nat_of_ascii c in
  existsb (Nat.eqb n) [9; 10; 11; 12; 13; 32].

Fixpoint trimStart (s : string) : string :=
  match s with
  | String c rest => if isWhiteSpace c then trimStart rest else s
  | EmptyString => EmptyString
  end.

Definition digitValue (radix : Z) (c : ascii) : option Z :=
  (let n := Z.of_nat (nat_of_ascii c) in
   let v :=
     if (48 <=? n) && (n <=? 57) then Some (n - 48)
     else if (97 <=? n) && (n <=? 122) then Some (n - 87)
     else if (65 <=? n) && (n <=? 90) then Some (n - 55)
     else None in
   match v with
   | Some d => if d <? radix then Some d else None
   | None => None
   end)%Z.

(** The longest prefix of digits, most significant first; [acc] is [None]
    until a digit has been read. *)
Fixpoint parseDigits (radix : Z) (acc : option Z) (s : string) : option Z :=
  match s with
  | EmptyString => acc
  | String c rest =>
      match digitValue radix c with
      | Some d =>
          parseDigits radix
            (Some (radix * match acc with Some a => a | None => 0 end + d)%Z) rest
      | None => acc
      end
  end.

(** [parseInt(s)] without a radix argument: leading white space, a sign,
    a [0x] prefix, then digits; [None] is NaN.  The white space recognised
    is the ASCII part of the ECMAScript set. *)
Definition parseInt (s : string) : option Z :=
  let s := trimStart s in
  let '(negative, s) :=
    match s with
    | String "-" rest => (true, rest)
    | String "+" rest => (false, rest)
    | _ => (false, s)
    end in
  let '(radix, s) :=
    match s with
    | String "0" (String "x" rest) => (16%Z, rest)
    | String "0" (String "X" rest) => (16%Z, rest)
    | _ => (10%Z, s)
    end in
  match parseDigits radix None s with
  | Some v => Some (if negative then (- v)%Z else v)
  | None => None
  end.

(** [parseInt(x)] where [x] may be [undefined]: the string "undefined" has
    no leading digit. *)
Definition parseIntOpt (x : option string) : option Z :=
  match x with
  | Some s => parseInt s
  | None => None
  end.

(** ** Dates *)

Definition Date : Type := option Z.

(** [a < b] and [a > b] on dates compare the time values; a comparison
    with NaN is false. *)
Definition Date_ltb (a b : Date) : bool :=
  match a, b with
  | Some x, Some y => (x <? y)%Z
  | _, _ => false
  end.

Definition Date_gtb (a b : Date) : bool := Date_ltb b a.

(** [a.getTime() - b.getTime()]. *)
Definition Date_diff (a b : Date) : number :=
  match a, b with
  | Some x, Some y => ofZ (x - y)
  | _, _ => NaN
  end.

(** What the host supplies: the [Date] constructor on a string, local
    midnight of the day of a time value ([new Date(y, m, d)] on the local
    calendar fields) and [toISOString] on a valid time value. *)
Record Host : Type := {
  Date_parse : string -> Date;
  Date_startOfLocalDay : Z -> Z;
  Date_toISOString : Z -> string
}.

(** ** Data model *)

Module Invocation.
Record t : Type := {
  type : string;       (* 'skill' | 'command' | 'rule' *)
  name : string;
  category : string
}.
End Invocation.

Module Context.
Record t : Type := {
  task : string;
  project : string;
  files : option (list string)
}.
End Context.

(** The value of a field typed [number]. *)
Inductive NumberValue : Type :=
| Number (x : number)
| Null
| Undefined.

(** ToNumber *)
Definition toNumber (v : NumberValue) : number :=
  match v with
  | Number x => x
  | Null => ofZ 0
  | Undefined => NaN
  end.

(** An element of [errors]: an [Error] instance, whose [name] and
    [message] are not enumerable, or an object literal with its fields. *)
Inductive ErrorValue : Type :=
| ErrorObject (name message : string)
| ObjectLiteral (fields : list (string * string)).

Module Outcome.
Record t : Type := {
  success : bool;
  duration : NumberValue;
  tokensUsed : NumberValue;
  cost : NumberValue
}.
End Outcome.

Module Metadata.
Record t : Type := {
  model : option string;
  sessionId : option string;
  toolCalls : option (list string);
  errors : option (list ErrorValue)
}.
End Metadata.

Module UsageLog.
Record t : Type := {
  id : string;
  timestamp : string;
  agent : string;
  invocation : Invocation.t;
  context : Context.t;
  outcome : Outcome.t;
  metadata : option Metadata.t
}.

(** [entry.id = i; entry.timestamp = ts]: the other fields are kept. *)
Definition stamp (i ts : string) (entry : t) : t :=
  {| id := i; timestamp := ts; agent := agent entry;
     invocation := invocation entry; context := context entry;
     outcome := outcome entry; metadata := metadata entry |}.
End UsageLog.

Module StoreMetadata.
Record t : Type := {
  version : string;
  lastUpdated : string
}.
End StoreMetadata.

Module UsageLogStore.
Record t : Type := {
  entries : list UsageLog.t;
  metadata : StoreMetadata.t
}.
End UsageLogStore.

(** ** JSON

    [JSON.parse(JSON.stringify(v))], field by field.  Strings, booleans
    and finite numbers come back as they were, -0 as 0; a number that is
    not finite is written as [null]; a property that is [undefined] is left
    out and reads as [undefined]; an [Error] instance has no enumerable
    property and is written as the empty object. *)

Module JSON.

Definition number (v : NumberValue) : NumberValue :=
  match v with
  | Number x =>
      if Num.isFinite x then Number (if Num.isZero x then Num.zero else x)
      else Null
  | Null => Null
  | Undefined => Undefined
  end.

Definition error (e : ErrorValue) : ErrorValue :=
  match e with
  | ErrorObject _ _ => ObjectLiteral []
  | ObjectLiteral fields => ObjectLiteral fields
  end.

Definition outcome (o : Outcome.t) : Outcome.t :=
  {| Outcome.success := Outcome.success o;
     Outcome.duration := number (Outcome.duration o);
     Outcome.tokensUsed := number (Outcome.tokensUsed o);
     Outcome.cost := number (Outcome.cost o) |}.

Definition metadata (m : Metadata.t) : Metadata.t :=
  {| Metadata.model := Metadata.model m;
     Metadata.sessionId := Metadata.sessionId m;
     Metadata.toolCalls := Metadata.toolCalls m;
     Metadata.errors := option_map (map error) (Metadata.errors m) |}.

Definition entry (e : UsageLog.t) : UsageLog.t :=
  {| UsageLog.id := UsageLog.id e;
     UsageLog.timestamp := UsageLog.timestamp e;
     UsageLog.agent := UsageLog.agent e;
     UsageLog.invocation := UsageLog.invocation e;
     UsageLog.context := UsageLog.context e;
     UsageLog.outcome := outcome (UsageLog.outcome e);
     UsageLog.metadata := option_map metadata (UsageLog.metadata e) |}.

Definition store (s : UsageLogStore.t) : UsageLogStore.t :=
  {| UsageLogStore.entries := map entry (UsageLogStore.entries s);
     UsageLogStore.metadata := UsageLogStore.metadata s |}.

End JSON.

Module LogFilters.
Record t : Type := {
  agent : option string;
  startTime : option Date;
  endTime : option Date;
  category : option string
}.

(** The filter object [{}]. *)
Definition none : t :=
  {| agent := None; startTime := None; endTime := None; category := None |}.
End LogFilters.

Module ProductivityMetrics.
Record t : Type := {
  totalInvocations : nat;
  skillInvocations : nat;
  commandInvocations : nat;
  ruleApplications : nat;
  averageDuration : number;
  totalDuration : number;
  successRate : number;
  failureRate : number;
  totalTokensUsed : number;
  totalCost : number;
  invocationsPerHour : number;
  tokensPerTask : number
}.
End ProductivityMetrics.

Inductive TimeOfDay : Type := morning | afternoon | evening | night.

Module UsagePattern.
Record t : Type := {
  skill : string;
  frequency : nat;
  averageDuration : number;
  successRate : number;
  timeOfDay : TimeOfDay
}.
End UsagePattern.

Module Deltas.
Record t : Type := {
  duration : number;
  successRate : number;
  tokensPerTask : number
}.
End Deltas.

Module BenchmarkComparison.
Record t : Type := {
  baseline : ProductivityMetrics.t;
  current : ProductivityMetrics.t;
  improvements : Deltas.t;
  percentImprovement : Deltas.t
}.
End BenchmarkComparison.

(** One constructor per template literal of [generateInsights]; the
    interpolated values are kept as they are, before [toFixed]. *)
Inductive Insight : Type :=
| LowSuccessRate (successRate : number)
| HighAverageDuration (averageDuration : number)
| LowInvocationsPerHour (invocationsPerHour : number)
| MostUsedSkill (skill : string) (count : nat).

Module DailySummary.
Record t : Type := {
  date : string;
  totalInvocations : nat;
  skillInvocations : nat;
  commandInvocations : nat;
  ruleApplications : nat;
  averageDuration : number;
  successRate : number;
  topSkills : list (string * nat);
  insights : list Insight
}.
End DailySummary.

(** ** The persisted file and the world around it *)

(** What the file holds: a JSON document that is a store, or text that
    [JSON.parse] rejects.  A document is held as the value [JSON.parse]
    yields for it. *)
Inductive FileData : Type :=
| Document (store : UsageLogStore.t)
| Malformed.

Inductive FileState : Type :=
| Absent                          (* readFile fails with code ENOENT *)
| Unreadable (code : string)      (* readFile fails with another code *)
| Present (data : FileData).

(** [clock k] is the time value of the [k]-th [new Date()], [ids k] the
    result of the [k]-th [generateId()]; [generateId] is not defined in the
    document.  [writeError] is the error [writeFile] fails with, if any. *)
Record World : Type := {
  file : FileState;
  writeError : option string;
  clock : nat -> Z;
  clockReads : nat;
  ids : nat -> string;
  idCalls : nat
}.

Definition M (A : Type) : Type := World -> Completion A * World.

Definition ret {A} (a : A) : M A := fun w => (Returned a, w).

Definition throw {A} (e : string) : M A := fun w => (Thrown e, w).

Definition bind {A B} (m : M A) (k : A -> M B) : M B :=
  fun w =>
    match m w with
    | (Returned a, w') => k a w'
    | (Thrown e, w') => (Thrown e, w')
    end.

Definition liftC {A} (c : Completion A) : M A := fun w => (c, w).

Notation "x <- m ;; k" := (bind m (fun x => k))
  (at level 61, m at next level, right associativity).
Notation "m ;;; k" := (bind m (fun _ => k))
  (at level 61, right associativity).

(** [new Date()] *)
Definition now : M Z :=
  fun w =>
    (Returned (clock w (clockReads w)),
     {| file := file w; writeError := writeError w; clock := clock w;
        clockReads := S (clockReads w); ids := ids w; idCalls := idCalls w |}).

Definition generateId : M string :=
  fun w =>
    (Returned (ids w (idCalls w)),
     {| file := file w; writeError := writeError w; clock := clock w;
        clockReads := clockReads w; ids := ids w; idCalls := S (idCalls w) |}).

Definition readFile : M FileData :=
  fun w =>
    match file w with
    | Absent => (Thrown "ENOENT", w)
    | Unreadable code => (Thrown code, w)
    | Present data => (Returned data, w)
    end.

Definition JSON_stringify (store : UsageLogStore.t) : FileData :=
  Document (JSON.store store).

Definition writeFile (data : FileData) : M unit :=
  fun w =>
    match writeError w with
    | Some e => (Thrown e, w)
    | None =>
        (Returned tt,
         {| file := Present data; writeError := None;
            clock := clock w; clockReads := clockReads w;
            ids := ids w; idCalls := idCalls w |})
    end.

Definition JSON_parse (data : FileData) : Completion UsageLogStore.t :=
  match data with
  | Document store => Returned store
  | Malformed => Thrown "SyntaxError"
  end.

(** [try body catch (error) handler] *)
Definition tryCatch {A} (body : M A) (handler : string -> M A) : M A :=
  fun w =>
    match body w with
    | (Returned a, w') => (Returned a, w')
    | (Thrown e, w') => handler e w'
    end.

(** ** JavaScript collections *)

(** A [Map] with string keys: [mapData] is the entry list in insertion
    order, [ownProperties] the own enumerable string-keyed properties of the
    object.  [new Map()] has neither, and [set] writes [mapData] only. *)
Module JsMap.
Record t (V : Type) : Type := {
  ownProperties : list (string * V);
  mapData : list (string * V)
}.
Arguments ownProperties {V} _.
Arguments mapData {V} _.

Definition new {V} : t V := {| ownProperties := []; mapData := [] |}.

Fixpoint lookup {V} (k : string) (l : list (string * V)) : option V :=
  match l with
  | [] => None
  | (k', v) :: rest => if String.eqb k' k then Some v else lookup k rest
  end.

Fixpoint update {V} (k : string) (v : V) (l : list (string * V)) : list (string * V) :=
  match l with
  | [] => [(k, v)]
  | (k', v') :: rest =>
      if String.eqb k' k then (k', v) :: rest else (k', v') :: update k v rest
  end.

Definition get {V} (k : string) (m : t V) : option V := lookup k (mapData m).

Definition has {V} (k : string) (m : t V) : bool :=
  match get k m with Some _ => true | None => false end.

(** An existing key keeps its position, a new key goes last. *)
Definition set {V} (k : string) (v : V) (m : t V) : t V :=
  {| ownProperties := ownProperties m; mapData := update k v (mapData m) |}.

(** [m.entries()] *)
Definition entries {V} (m : t V) : list (string * V) := mapData m.

(** [Object.entries(m)] *)
Definition Object_entries {V} (m : t V) : list (string * V) := ownProperties m.
End JsMap.

(** [l.sort(compare)]: the sort is stable, and [compare a b > 0] puts [b]
    first. *)
Fixpoint insertSorted {A} (compare : A -> A -> Z) (x : A) (l : list A) : list A :=
  match l with
  | [] => [x]
  | y :: ys =>
      if (compare x y >? 0)%Z then y :: insertSorted compare x ys
      else x :: y :: ys
  end.

Fixpoint sort {A} (compare : A -> A -> Z) (l : list A) : list A :=
  match l with
  | [] => []
  | x :: xs => insertSorted compare x (sort compare xs)
  end.

(** [l.slice(0, n)] *)
Definition slice0 {A} (n : nat) (l : list A) : list A := firstn n l.

(** ** The classes *)

Section Engine.

Variable host : Host.

(** The identifier [totalTokensUsed] occurs free in [calculate]: the sum of
    the tokens is only the initialiser of the property of that name, no
    variable of the method holds it.  [scope_totalTokensUsed] is what the
    identifier resolves to in the enclosing scope, [None] when nothing
    there binds it, as in the document. *)
Variable scope_totalTokensUsed : option number.

(** *** UsageLogger *)

(** [new Date().toISOString()] *)
Definition isoNow : M string :=
  t <- now ;; ret (Date_toISOString host t).

Definition load : M UsageLogStore.t :=
  tryCatch
    (data <- readFile ;; liftC (JSON_parse data))
    (fun error =>
       if String.eqb error "ENOENT" then
         ts <- isoNow ;;
         ret {| UsageLogStore.entries := [];
                UsageLogStore.metadata :=
                  {| StoreMetadata.version := "1.0";
                     StoreMetadata.lastUpdated := ts |} |}
       else throw error).

Definition save (store : UsageLogStore.t) : M unit :=
  ts <- isoNow ;;
  writeFile
    (JSON_stringify
       {| UsageLogStore.entries := UsageLogStore.entries store;
          UsageLogStore.metadata :=
            {| StoreMetadata.version :=
                 StoreMetadata.version (UsageLogStore.metadata store);
               StoreMetadata.lastUpdated := ts |} |}).

Definition log (entry : UsageLog.t) : M unit :=
  store <- load ;;
  i <- generateId ;;
  ts <- isoNow ;;
  save
    {| UsageLogStore.entries :=
         UsageLogStore.entries store ++ [UsageLog.stamp i ts entry];
       UsageLogStore.metadata := UsageLogStore.metadata store |}.

(** ToBoolean on a string *)
Definition truthyString (s : string) : bool := negb (String.eqb s "").

(** [filters.f && test]: the filter [f] is there, is truthy, and [test]
    holds of it. *)
Definition guard {A} (truthy : A -> bool) (f : option A) (test : A -> bool) : bool :=
  match f with
  | Some a => truthy a && test a
  | None => false
  end.

Definition matches (entry : UsageLog.t) (filters : LogFilters.t) : bool :=
  if guard truthyString (LogFilters.agent filters)
       (fun a => negb (String.eqb (UsageLog.agent entry) a))
  then false
  else if guard (fun _ => true) (LogFilters.startTime filters)
       (fun startTime =>
          Date_ltb (Date_parse host (UsageLog.timestamp entry)) startTime)
  then false
  else if guard (fun _ => true) (LogFilters.endTime filters)
       (fun endTime =>
          Date_gtb (Date_parse host (UsageLog.timestamp entry)) endTime)
  then false
  else if guard truthyString (LogFilters.category filters)
       (fun c =>
          negb (String.eqb (Invocation.category (UsageLog.invocation entry)) c))
  then false
  else true.

Definition query (filters : LogFilters.t) : M (list UsageLog.t) :=
  store <- load ;;
  ret (filter (fun entry => matches entry filters) (UsageLogStore.entries store)).

(** *** MetricsCalculator *)

Record TimeRange : Type := {
  start : Date;
  end_ : Date;
  range_duration : number
}.

(** [new Date(Math.min(...timestamps))] and the same with [Math.max]:
    NaN as soon as one time value is NaN; without arguments [Math.min] is
    +Infinity and [Math.max] -Infinity, which [new Date] turns into NaN. *)
Definition Date_extremum (pick : Z -> Z -> Z) (timestamps : list Date) : Date :=
  match timestamps with
  | [] => None
  | d :: ds =>
      fold_left
        (fun acc d' =>
           match acc, d' with
           | Some a, Some b => Some (pick a b)
           | _, _ => None
           end)
        ds d
  end.

Definition getTimeRange (metrics : list UsageLog.t) : TimeRange :=
  let timestamps := map (fun m => Date_parse host (UsageLog.timestamp m)) metrics in
  let start := Date_extremum Z.min timestamps in
  let end_ := Date_extremum Z.max timestamps in
  {| start := start; end_ := end_; range_duration := Date_diff end_ start |}.

Definition calculateInvocationsPerHour (metrics : list UsageLog.t) : number :=
  let timeRange := getTimeRange metrics in
  let hours := (range_duration timeRange / ofZ (1000 * 60 * 60))%num in
  (ofNat (List.length metrics) / hours)%num.

(** [x || 0] *)
Definition orZero (x : NumberValue) : number :=
  match x with
  | Number v => if Num.truthy v then v else ofZ 0
  | Null | Undefined => ofZ 0
  end.

Definition hasType (ty : string) (m : UsageLog.t) : bool :=
  String.eqb (Invocation.type (UsageLog.invocation m)) ty.

Definition isSuccess (m : UsageLog.t) : bool :=
  Outcome.success (UsageLog.outcome m).

Definition sumDuration (metrics : list UsageLog.t) : number :=
  fold_left
    (fun sum m => (sum + toNumber (Outcome.duration (UsageLog.outcome m)))%num)
    metrics (ofZ 0).

Definition sumTokensUsed (metrics : list UsageLog.t) : number :=
  fold_left
    (fun sum m => (sum + orZero (Outcome.tokensUsed (UsageLog.outcome m)))%num)
    metrics (ofZ 0).

Definition sumCost (metrics : list UsageLog.t) : number :=
  fold_left
    (fun sum m => (sum + orZero (Outcome.cost (UsageLog.outcome m)))%num)
    metrics (ofZ 0).

(** The properties of the returned object are evaluated in source order;
    the last one reads the free identifier, a ReferenceError when it is
    unbound. *)
Definition calculate (metrics : list UsageLog.t) : Completion ProductivityMetrics.t :=
  let total := List.length metrics in
  let successful := filter isSuccess metrics in
  let skillInvocations := filter (hasType "skill") metrics in
  let commandInvocations := filter (hasType "command") metrics in
  let ruleApplications := filter (hasType "rule") metrics in
  let totalDuration := sumDuration metrics in
  let averageDuration := (totalDuration / ofNat total)%num in
  match scope_totalTokensUsed with
  | None => Thrown "ReferenceError"
  | Some totalTokensUsed =>
      Returned
        {| ProductivityMetrics.totalInvocations := total;
           ProductivityMetrics.skillInvocations := List.length skillInvocations;
           ProductivityMetrics.commandInvocations := List.length commandInvocations;
           ProductivityMetrics.ruleApplications := List.length ruleApplications;
           ProductivityMetrics.averageDuration := averageDuration;
           ProductivityMetrics.totalDuration := totalDuration;
           ProductivityMetrics.successRate :=
             (ofNat (List.length successful) / ofNat total * ofZ 100)%num;
           ProductivityMetrics.failureRate :=
             ((ofNat total - ofNat (List.length successful)) / ofNat total * ofZ 100)%num;
           ProductivityMetrics.totalTokensUsed := sumTokensUsed metrics;
           ProductivityMetrics.totalCost := sumCost metrics;
           ProductivityMetrics.invocationsPerHour :=
             calculateInvocationsPerHour metrics;
           ProductivityMetrics.tokensPerTask :=
             (totalTokensUsed / ofNat total)%num |}
  end.

(** *** UsageAnalyzer *)

Definition getTimeOfDay (hour : option Z) : TimeOfDay :=
  match hour with
  | None => night
  | Some hour =>
      if ((5 <=? hour) && (hour <? 12))%Z then morning
      else if ((12 <=? hour) && (hour <? 17))%Z then afternoon
      else if ((17 <=? hour) && (hour <? 21))%Z then evening
      else night
  end.

Definition groupBySkill (metrics : list UsageLog.t) : JsMap.t (list UsageLog.t) :=
  fold_left
    (fun groups m =>
       if hasType "skill" m then
         let skill := Invocation.name (UsageLog.invocation m) in
         let groups :=
           if negb (JsMap.has skill groups) then JsMap.set skill [] groups
           else groups in
         match JsMap.get skill groups with
         | Some group => JsMap.set skill (group ++ [m]) groups
         | None => groups     (* not reached: the key has just been set *)
         end
       else groups)
    metrics JsMap.new.

(** [parseInt(m.timestamp.split('T')[1])] *)
Definition hourOf (m : UsageLog.t) : option Z :=
  parseIntOpt (nth_error (split "T" (UsageLog.timestamp m)) 1).

(** The body of the loop of [analyzePatterns]. *)
Definition patternOf (group : string * list UsageLog.t) : Completion UsagePattern.t :=
  let '(skill, skillMetrics) := group in
  let frequency := List.length skillMetrics in
  let averageDuration := (sumDuration skillMetrics / ofNat frequency)%num in
  let successRate :=
    (ofNat (List.length (filter isSuccess skillMetrics)) / ofNat frequency * ofZ 100)%num in
  match skillMetrics with
  | [] => Thrown "TypeError"          (* skillMetrics[0] is undefined *)
  | first :: _ =>
      Returned
        {| UsagePattern.skill := skill;
           UsagePattern.frequency := frequency;
           UsagePattern.averageDuration := averageDuration;
           UsagePattern.successRate := successRate;
           UsagePattern.timeOfDay := getTimeOfDay (hourOf first) |}
  end.

Definition byFrequencyDesc (a b : UsagePattern.t) : Z :=
  (Z.of_nat (UsagePattern.frequency b) - Z.of_nat (UsagePattern.frequency a))%Z.

(** The loop and the final sort, over the pairs the loop iterates on. *)
Definition patternsOf (groups : list (string * list UsageLog.t))
  : Completion (list UsagePattern.t) :=
  bindC (mapC patternOf groups)
    (fun patterns => Returned (sort byFrequencyDesc patterns)).

Definition analyzePatterns (metrics : list UsageLog.t) : Completion (list UsagePattern.t) :=
  let skills := groupBySkill metrics in
  patternsOf (JsMap.Object_entries skills).

(** *** BenchmarkComparator *)

Definition compare (baseline current : list UsageLog.t) : Completion BenchmarkComparison.t :=
  bindC (calculate baseline) (fun baselineMetrics =>
  bindC (calculate current) (fun currentMetrics =>
  let bd := ProductivityMetrics.averageDuration baselineMetrics in
  let cd := ProductivityMetrics.averageDuration currentMetrics in
  let bs := ProductivityMetrics.successRate baselineMetrics in
  let cs := ProductivityMetrics.successRate currentMetrics in
  let bt := ProductivityMetrics.tokensPerTask baselineMetrics in
  let ct := ProductivityMetrics.tokensPerTask currentMetrics in
  Returned
    {| BenchmarkComparison.baseline := baselineMetrics;
       BenchmarkComparison.current := currentMetrics;
       BenchmarkComparison.improvements :=
         {| Deltas.duration := (bd - cd)%num;
            Deltas.successRate := (cs - bs)%num;
            Deltas.tokensPerTask := (bt - ct)%num |};
       BenchmarkComparison.percentImprovement :=
         {| Deltas.duration := ((bd - cd) / bd * ofZ 100)%num;
            Deltas.successRate := (cs - bs)%num;
            Deltas.tokensPerTask := ((bt - ct) / bt * ofZ 100)%num |} |})).

(** *** ReportGenerator *)

Definition byCountDesc (a b : string * nat) : Z :=
  (Z.of_nat (snd b) - Z.of_nat (snd a))%Z.

Definition countSkills (metrics : list UsageLog.t) : JsMap.t nat :=
  fold_left
    (fun skillCounts m =>
       if hasType "skill" m then
         let skill := Invocation.name (UsageLog.invocation m) in
         let count :=
           match JsMap.get skill skillCounts with
           | Some c => c
           | None => 0
           end in
         JsMap.set skill (count + 1) skillCounts
       else skillCounts)
    metrics JsMap.new.

Definition getTopSkills (metrics : list UsageLog.t) (topN : nat) : list (string * nat) :=
  slice0 topN (sort byCountDesc (JsMap.entries (countSkills metrics))).

Definition generateInsights (metrics : ProductivityMetrics.t)
  (topSkills : list (string * nat)) : Completion (list Insight) :=
  let insights := [] in
  let insights :=
    if Num.ltb (ProductivityMetrics.successRate metrics) (ofZ 80)
    then insights ++ [LowSuccessRate (ProductivityMetrics.successRate metrics)]
    else insights in
  let insights :=
    if Num.gtb (ProductivityMetrics.averageDuration metrics) (ofZ 30000)
    then insights ++ [HighAverageDuration (ProductivityMetrics.averageDuration metrics)]
    else insights in
  let insights :=
    if Num.ltb (ProductivityMetrics.invocationsPerHour metrics) (ofZ 5)
    then insights ++ [LowInvocationsPerHour (ProductivityMetrics.invocationsPerHour metrics)]
    else insights in
  match topSkills with
  | [] => Thrown "TypeError"          (* topSkills[0] is undefined *)
  | (skill, count) :: _ => Returned (insights ++ [MostUsedSkill skill count])
  end.

(** [d.toISOString()] throws a RangeError on an invalid date. *)
Definition toISOString (d : Date) : Completion string :=
  match d with
  | Some t => Returned (Date_toISOString host t)
  | None => Thrown "RangeError"
  end.

Definition generateDailySummary (date : Date) : M DailySummary.t :=
  let startOfDay := option_map (Date_startOfLocalDay host) date in
  let endOfDay := option_map (fun t => (t + 24 * 60 * 60 * 1000 - 1)%Z) startOfDay in
  metrics <- query {| LogFilters.agent := None;
                      LogFilters.startTime := Some startOfDay;
                      LogFilters.endTime := Some endOfDay;
                      LogFilters.category := None |} ;;
  summary <- liftC (calculate metrics) ;;
  let topSkills := getTopSkills metrics 5 in
  iso <- liftC (toISOString startOfDay) ;;
  insights <- liftC (generateInsights summary topSkills) ;;
  ret {| DailySummary.date := hd "" (split "T" iso);
         DailySummary.totalInvocations := ProductivityMetrics.totalInvocations summary;
         DailySummary.skillInvocations := ProductivityMetrics.skillInvocations summary;
         DailySummary.commandInvocations := ProductivityMetrics.commandInvocations summary;
         DailySummary.ruleApplications := ProductivityMetrics.ruleApplications summary;
         DailySummary.averageDuration := ProductivityMetrics.averageDuration summary;
         DailySummary.successRate := ProductivityMetrics.successRate summary;
         DailySummary.topSkills := topSkills;
         DailySummary.insights := insights |}.

End Engine.

(** ** A host: UTC as the local time zone

    [parse] reads the one format [toISOString] writes,
    [YYYY-MM-DDTHH:mm:ss.sssZ] with a four-digit year, which is the format
    of every timestamp the store assigns; every other string is an invalid
    date here. *)

Module Utc.

Local Open Scope Z_scope.

Definition daysFromCivil (y m d : Z) : Z :=
  let y' := if m <=? 2 then y - 1 else y in
  let era := y' / 400 in
  let yoe := y' - era * 400 in
  let mp := if m >? 2 then m - 3 else m + 9 in
  let doy := (153 * mp + 2) / 5 + d - 1 in
  let doe := yoe * 365 + yoe / 4 - yoe / 100 + doy in
  era * 146097 + doe - 719468.

Definition civilFromDays (days : Z) : Z * Z * Z :=
  let z := days + 719468 in
  let era := z / 146097 in
  let doe := z - era * 146097 in
  let yoe := (doe - doe / 1460 + doe / 36524 - doe / 146096) / 365 in
  let doy := doe - (365 * yoe + yoe / 4 - yoe / 100) in
  let mp := (5 * doy + 2) / 153 in
  let d := doy - (153 * mp + 2) / 5 + 1 in
  let m := if mp <? 10 then mp + 3 else mp - 9 in
  let y := yoe + era * 400 in
  (if m <=? 2 then y + 1 else y, m, d).

Definition isLeap (y : Z) : bool :=
  ((y mod 4 =? 0) && negb (y mod 100 =? 0)) || (y mod 400 =? 0).

Definition daysInMonth (y m : Z) : Z :=
  if m =? 2 then (if isLeap y then 29 else 28)
  else if (m =? 4) || (m =? 6) || (m =? 9) || (m =? 11) then 30
  else 31.

Fixpoint readDigits (k : nat) (acc : Z) (s : string) : option (Z * string) :=
  match k with
  | O => Some (acc, s)
  | S k' =>
      match s with
      | String c rest =>
          match digitValue 10 c with
          | Some d => readDigits k' (10 * acc + d) rest
          | None => None
          end
      | EmptyString => None
      end
  end.

Definition expect (c : ascii) (s : string) : option string :=
  match s with
  | String c' rest => if Ascii.eqb c c' then Some rest else None
  | EmptyString => None
  end.

Definition obind {A B} (x : option A) (k : A -> option B) : option B :=
  match x with
  | Some a => k a
  | None => None
  end.

Notation "' p <-? x ;; k" := (obind x (fun p => k))
  (at level 61, p pattern, x at next level, right associativity).
Notation "s <-? x ;; k" := (obind x (fun s => k))
  (at level 61, x at next level, right associativity).

Definition parse (s : string) : Date :=
  '(y, s) <-? readDigits 4 0 s ;;
  s <-? expect "-" s ;;
  '(m, s) <-? readDigits 2 0 s ;;
  s <-? expect "-" s ;;
  '(d, s) <-? readDigits 2 0 s ;;
  s <-? expect "T" s ;;
  '(h, s) <-? readDigits 2 0 s ;;
  s <-? expect ":" s ;;
  '(mi, s) <-? readDigits 2 0 s ;;
  s <-? expect ":" s ;;
  '(sec, s) <-? readDigits 2 0 s ;;
  s <-? expect "." s ;;
  '(ms, s) <-? readDigits 3 0 s ;;
  s <-? expect "Z" s ;;
  match s with
  | EmptyString =>
      if (1 <=? m) && (m <=? 12) && (1 <=? d) && (d <=? daysInMonth y m)
         && (h <=? 23) && (mi <=? 59) && (sec <=? 59)
      then Some (daysFromCivil y m d * 86400000
                 + h * 3600000 + mi * 60000 + sec * 1000 + ms)
      else None
  | String _ _ => None
  end.

Definition digitChar (d : Z) : ascii := ascii_of_nat (48 + Z.to_nat d).

(** The [k] low decimal digits of [n], most significant first. *)
Fixpoint pad (k : nat) (n : Z) : string :=
  match k with
  | O => EmptyString
  | S k' => (pad k' (n / 10) ++ String (digitChar (n mod 10)) EmptyString)%string
  end.

Definition toISOString (t : Z) : string :=
  let days := t / 86400000 in
  let rest := t mod 86400000 in
  let '(y, m, d) := civilFromDays days in
  (pad 4 y ++ "-" ++ pad 2 m ++ "-" ++ pad 2 d ++ "T"
   ++ pad 2 (rest / 3600000) ++ ":" ++ pad 2 (rest / 60000 mod 60) ++ ":"
   ++ pad 2 (rest / 1000 mod 60) ++ "." ++ pad 3 (rest mod 1000) ++ "Z")%string.

Definition startOfDay (t : Z) : Z := t - t mod 86400000.

Definition host : Host :=
  {| Date_parse := parse;
     Date_startOfLocalDay := startOfDay;
     Date_toISOString := toISOString |}.

End Utc.

(** ** Sample data *)

Module Sample.

Definition entry (ty nm ts : string) (ok : bool) (duration : Z)
  (tokens : option Z) : UsageLog.t :=
  {| UsageLog.id := "";
     UsageLog.timestamp := ts;
     UsageLog.agent := "sisyphus";
     UsageLog.invocation :=
       {| Invocation.type := ty; Invocation.name := nm;
          Invocation.category := "testing" |};
     UsageLog.context :=
       {| Context.task := "Implement feature"; Context.project := "/work";
          Context.files := None |};
     UsageLog.outcome :=
       {| Outcome.success := ok;
          Outcome.duration := Number (ofZ duration);
          Outcome.tokensUsed :=
            match tokens with
            | Some n => Number (ofZ n)
            | None => Undefined
            end;
          Outcome.cost := Undefined |};
     UsageLog.metadata := None |}.

(** What [beforeExecution] logs: no success yet, duration 0, no tokens. *)
Definition started : UsageLog.t :=
  entry "skill" "run-tests" "2025-01-12T09:00:00.000Z" false 0 None.

Definition build1 : UsageLog.t :=
  entry "skill" "build" "2025-01-12T09:15:00.000Z" true 1000 (Some 1500%Z).

Definition build2 : UsageLog.t :=
  entry "skill" "build" "2025-01-12T14:30:00.000Z" false 3000 (Some 500%Z).

Definition branch : UsageLog.t :=
  entry "command" "create-branch" "2025-01-12T10:00:00.000Z" true 200 (Some 100%Z).

(** A run that failed with an [Error], and one whose duration was never
    measured. *)
Definition crashed : UsageLog.t :=
  {| UsageLog.id := "";
     UsageLog.timestamp := "";
     UsageLog.agent := "sisyphus";
     UsageLog.invocation := UsageLog.invocation build2;
     UsageLog.context := UsageLog.context build2;
     UsageLog.outcome := UsageLog.outcome build2;
     UsageLog.metadata :=
       Some {| Metadata.model := None; Metadata.sessionId := None;
               Metadata.toolCalls := None;
               Metadata.errors := Some [ErrorObject "Error" "disk full"] |} |}.

Definition unmeasured : UsageLog.t :=
  {| UsageLog.id := "";
     UsageLog.timestamp := "";
     UsageLog.agent := "sisyphus";
     UsageLog.invocation := UsageLog.invocation build2;
     UsageLog.context := UsageLog.context build2;
     UsageLog.outcome :=
       {| Outcome.success := false; Outcome.duration := Number NaN;
          Outcome.tokensUsed := Undefined; Outcome.cost := Undefined |};
     UsageLog.metadata := None |}.

Definition undated : UsageLog.t :=
  entry "rule" "git-workflow" "yesterday" true 10 None.

Fixpoint tally (k : nat) : string :=
  match k with
  | O => EmptyString
  | S k' => String "i" (tally k')
  end.

Definition genId (k : nat) : string := String "#" (tally k).

(** A clock that starts on 2025-01-12 at 14:30 UTC and advances a second
    per reading. *)
Fixpoint tick (k : nat) : Z :=
  match k with
  | O => 1736692200000%Z
  | S k' => (tick k' + 1000)%Z
  end.

(** No file yet, a writable medium. *)
Definition fresh : World :=
  {| file := Absent;
     writeError := None;
     clock := tick;
     clockReads := 0;
     ids := genId;
     idCalls := 0 |}.

Definition holding (entries : list UsageLog.t) : World :=
  {| file :=
       Present (Document
         {| UsageLogStore.entries := entries;
            UsageLogStore.metadata :=
              {| StoreMetadata.version := "1.0";
                 StoreMetadata.lastUpdated := "2025-01-12T14:30:00.000Z" |} |});
     writeError := None;
     clock := clock fresh;
     clockReads := 0;
     ids := genId;
     idCalls := 0 |}.

(** The pattern of the scenario: two runs of [build], 1000 ms and 3000 ms,
    one of them failed, the first one at 09:15. *)
Definition buildPattern : UsagePattern.t :=
  {| UsagePattern.skill := "build";
     UsagePattern.frequency := 2;
     UsagePattern.averageDuration := ofZ 2000;
     UsagePattern.successRate := ofZ 50;
     UsagePattern.timeOfDay := morning |}.

(** An agent filter that is the empty string, and a lower time bound. *)
Definition emptyAgent : LogFilters.t :=
  {| LogFilters.agent := Some ""; LogFilters.startTime := None;
     LogFilters.endTime := None; LogFilters.category := None |}.

Definition sinceEpoch : LogFilters.t :=
  {| LogFilters.agent := None; LogFilters.startTime := Some (Some 0%Z);
     LogFilters.endTime := None; LogFilters.category := None |}.

(** The figures of the example output of the analytics guide: 95 % success,
    3.5 s on average, 12.5 invocations per hour. *)
Definition excellent : ProductivityMetrics.t :=
  {| ProductivityMetrics.totalInvocations := 20;
     ProductivityMetrics.skillInvocations := 15;
     ProductivityMetrics.commandInvocations := 5;
     ProductivityMetrics.ruleApplications := 0;
     ProductivityMetrics.averageDuration := ofZ 3500;
     ProductivityMetrics.totalDuration := ofZ 70000;
     ProductivityMetrics.successRate := ofZ 95;
     ProductivityMetrics.failureRate := ofZ 5;
     ProductivityMetrics.totalTokensUsed := ofZ 250000;
     ProductivityMetrics.totalCost := (ofZ 1 / ofZ 4)%num;
     ProductivityMetrics.invocationsPerHour := (ofZ 25 / ofZ 2)%num;
     ProductivityMetrics.tokensPerTask := ofZ 12500 |}.

End Sample.

(** ** What the claims speak of *)

(** A completion signals [e] when it is the abrupt completion [e]. *)
Definition signals {A} (c : Completion A) (e : string) : Prop := c = Thrown e.

(** [max(timestamp) - min(timestamp)] over the input. *)
Definition timeSpan (host : Host) (metrics : list UsageLog.t) : number :=
  range_duration (getTimeRange host metrics).

(** The aggregate cannot be computed: no entry, or a span of zero. *)
Definition undefinedAggregate (host : Host) (metrics : list UsageLog.t) : Prop :=
  metrics = [] \/ isZero (timeSpan host metrics) = true.

Definition knownType (m : UsageLog.t) : Prop :=
  let ty := Invocation.type (UsageLog.invocation m) in
  ty = "skill" \/ ty = "command" \/ ty = "rule".

Definition allZero (d : Deltas.t) : Prop :=
  isZero (Deltas.duration d) = true
  /\ isZero (Deltas.successRate d) = true
  /\ isZero (Deltas.tokensPerTask d) = true.

(** [a >= b] and [a <= b] on dates; false when an operand is NaN. *)
Definition Date_geb (a b : Date) : bool :=
  match a, b with
  | Some x, Some y => (y <=? x)%Z
  | _, _ => false
  end.

Definition Date_leb (a b : Date) : bool := Date_geb b a.

(** The filter of the specification: an entry matches when it satisfies
    every filter that is supplied, agent and category by equality, the
    timestamp by [>= startTime] and [<= endTime]. *)
Definition satisfiesEvery (host : Host) (entry : UsageLog.t)
  (filters : LogFilters.t) : bool :=
  match LogFilters.agent filters with
  | Some a => String.eqb (UsageLog.agent entry) a
  | None => true
  end
  && match LogFilters.category filters with
     | Some c => String.eqb (Invocation.category (UsageLog.invocation entry)) c
     | None => true
     end
  && match LogFilters.startTime filters with
     | Some startTime =>
         Date_geb (Date_parse host (UsageLog.timestamp entry)) startTime
     | None => true
     end
  && match LogFilters.endTime filters with
     | Some endTime =>
         Date_leb (Date_parse host (UsageLog.timestamp entry)) endTime
     | None => true
     end.

(** What [matches] lets through: a string filter binds when it is not the
    empty string; a time bound binds when both the bound and the parsed
    timestamp are valid dates. *)
Definition passes (host : Host) (entry : UsageLog.t) (filters : LogFilters.t) : Prop :=
  (forall a, LogFilters.agent filters = Some a -> a <> "" ->
             UsageLog.agent entry = a)
  /\ (forall c, LogFilters.category filters = Some c -> c <> "" ->
                Invocation.category (UsageLog.invocation entry) = c)
  /\ (forall u t, LogFilters.startTime filters = Some (Some u) ->
                  Date_parse host (UsageLog.timestamp entry) = Some t ->
                  (u <= t)%Z)
  /\ (forall u t, LogFilters.endTime filters = Some (Some u) ->
                  Date_parse host (UsageLog.timestamp entry) = Some t ->
                  (t <= u)%Z).

(** [l1] is [l2] with some elements left out, the order kept. *)
Inductive Subsequence {A : Type} : list A -> list A -> Prop :=
| Subsequence_nil : Subsequence [] []
| Subsequence_skip x l1 l2 : Subsequence l1 l2 -> Subsequence l1 (x :: l2)
| Subsequence_keep x l1 l2 : Subsequence l1 l2 -> Subsequence (x :: l1) (x :: l2).

(** The entries the file holds; none when there is no file. *)
Definition stored (w : World) : list UsageLog.t :=
  match file w with
  | Present (Document store) => UsageLogStore.entries store
  | _ => []
  end.

Definition idsOf (entries : list UsageLog.t) : list string :=
  map UsageLog.id entries.

(** Modelled from the spec: [generateId] is not defined in the document;
    the store is to assign a freshly generated unique id, so no two calls
    return the same id. *)
Definition freshIds (w : World) : Prop :=
  forall j k, ids w j = ids w k -> j = k.

(** The store has been written through [log] only: the file, when there
    is one, is a document, as read back from JSON, in which every id is
    the result of an earlier call of [generateId]. *)
Definition appendOnly (w : World) : Prop :=
  freshIds w
  /\ match file w with
     | Absent => True
     | Present (Document store) =>
         map JSON.entry (UsageLogStore.entries store)
         = UsageLogStore.entries store
         /\ NoDup (idsOf (UsageLogStore.entries store))
         /\ Forall (fun i => exists k, k < idCalls w /\ ids w k = i)
              (idsOf (UsageLogStore.entries store))
     | _ => False
     end.

(** Equal except for [id] and [timestamp]. *)
Definition sameButStamp (e e' : UsageLog.t) : Prop :=
  UsageLog.agent e = UsageLog.agent e'
  /\ UsageLog.invocation e = UsageLog.invocation e'
  /\ UsageLog.context e = UsageLog.context e'
  /\ UsageLog.outcome e = UsageLog.outcome e'
  /\ UsageLog.metadata e = UsageLog.metadata e'.

(** The number of entries of invocation type [skill]. *)
Definition skillCount (metrics : list UsageLog.t) : nat :=
  List.length (filter (hasType "skill") metrics).

Definition totalFrequency (patterns : list UsagePattern.t) : nat :=
  fold_right (fun p n => UsagePattern.frequency p + n) 0 patterns.

(** The hour of the day of a time value, in UTC. *)
Definition utcHour (t : Z) : Z := (t mod 86400000 / 3600000)%Z.

(** [sep] does not occur in [s]. *)
Fixpoint lacks (sep : ascii) (s : string) : bool :=
  match s with
  | EmptyString => true
  | String c rest => negb (Ascii.eqb c sep) && lacks sep rest
  end.

(** The entries held by the groups of a [Map] of groups. *)
Definition groupSizes (groups : list (string * list UsageLog.t)) : nat :=
  fold_right (fun g n => List.length (snd g) + n) 0 groups.

(** [a] may stand before [b] in an order of descending frequency. *)
Definition moreFrequent (a b : UsagePattern.t) : Prop :=
  UsagePattern.frequency b <= UsagePattern.frequency a.

(** A group of [groupBySkill]: not empty, and made of skill entries that
    bear the name the group is filed under. *)
Definition skillGroup (g : string * list UsageLog.t) : Prop :=
  snd g <> []
  /\ Forall (fun m => hasType "skill" m = true
                      /\ Invocation.name (UsageLog.invocation m) = fst g)
       (snd g).

(** ** OpencodeUsageTracker *)

(** What [categoryMap[skill] || 'other'] evaluates to: a category, or, when
    [skill] names a member of [Object.prototype], that inherited member,
    which is a function or an object and not a string. *)
Inductive CategoryValue : Type :=
| Category (category : string)
| Inherited (member : string).

Definition categoryMap : list (string * string) :=
  [("analyze-codebase", "code-analysis");
   ("refactor-code", "code-analysis");
   ("review-code", "code-review");
   ("find-files", "file-operations");
   ("read-files", "file-operations");
   ("edit-files", "file-operations");
   ("search-repos", "external-research");
   ("fetch-docs", "external-research");
   ("find-examples", "external-research");
   ("run-tests", "testing");
   ("generate-coverage", "testing");
   ("e2e-testing", "testing")].

(** The property names an object literal inherits. *)
Definition Object_prototype : list string :=
  ["constructor"; "hasOwnProperty"; "isPrototypeOf"; "propertyIsEnumerable";
   "toLocaleString"; "toString"; "valueOf"; "__proto__";
   "__defineGetter__"; "__defineSetter__"; "__lookupGetter__";
   "__lookupSetter__"].

Definition categorizeSkill (skill : string) : CategoryValue :=
  match JsMap.lookup skill categoryMap with
  | Some c => if truthyString c then Category c else Category "other"
  | None =>
      if existsb (String.eqb skill) Object_prototype then Inherited skill
      else Category "other"
  end.

Record Tracker : Type := {
  currentTask : option string
}.

(** ToBoolean of [this.currentTask] *)
Definition armed (t : Tracker) : bool :=
  match currentTask t with
  | Some task => truthyString task
  | None => false
  end.

Section TrackerModel.

Variable host : Host.

(** [process.cwd()] *)
Variable cwd : string.

(** The object literal handed to [log]: no [id], no [timestamp] (both are
    assigned by [log] before anything reads them), no [files], no
    [metadata]. *)
Definition trackedEntry (skill category task : string) (outcome : Outcome.t)
  : UsageLog.t :=
  {| UsageLog.id := "";
     UsageLog.timestamp := "";
     UsageLog.agent := "sisyphus";
     UsageLog.invocation :=
       {| Invocation.type := "skill"; Invocation.name := skill;
          Invocation.category := category |};
     UsageLog.context :=
       {| Context.task := task; Context.project := cwd; Context.files := None |};
     UsageLog.outcome := outcome;
     UsageLog.metadata := None |}.

(** The methods act on the tracker and on the world; the tracker is
    returned also when [log] throws.  They are [None] when the category is
    an inherited member: the entry would then hold a function where the
    data model has a string. *)
Definition beforeExecution (skill task : string) (t : Tracker) (w : World)
  : option (Completion unit * Tracker * World) :=
  match categorizeSkill skill with
  | Inherited _ => None
  | Category category =>
      let t := {| currentTask := Some task |} in
      let '(r, w) :=
        log host
          (trackedEntry skill category task
             {| Outcome.success := false; Outcome.duration := Number (ofZ 0);
                Outcome.tokensUsed := Undefined; Outcome.cost := Undefined |})
          w in
      Some (r, t, w)
  end.

Definition afterExecution (skill : string) (success : bool) (duration : number)
  (tokensUsed : option number) (t : Tracker) (w : World)
  : option (Completion unit * Tracker * World) :=
  match currentTask t with
  | Some task =>
      if truthyString task then
        match categorizeSkill skill with
        | Inherited _ => None
        | Category category =>
            match
              log host
                (trackedEntry skill category task
                   {| Outcome.success := success;
                      Outcome.duration := Number duration;
                      Outcome.tokensUsed :=
                        match tokensUsed with
                        | Some n => Number n
                        | None => Undefined
                        end;
                      Outcome.cost := Undefined |})
                w
            with
            | (Returned _, w) => Some (Returned tt, {| currentTask := None |}, w)
            | (Thrown e, w) => Some (Thrown e, t, w)
            end
        end
      else Some (Returned tt, t, w)
  | None => Some (Returned tt, t, w)
  end.

End TrackerModel.

(** ** More notions for the properties *)

(** [log] of each entry in turn. *)
Fixpoint logAll (host : Host) (entries : list UsageLog.t) : M unit :=
  match entries with
  | [] => ret tt
  | e :: rest => log host e ;;; logAll host rest
  end.

(** The file can be read as a store: it is missing or holds a document. *)
Definition readable (w : World) : Prop :=
  file w = Absent \/ exists store, file w = Present (Document store).

(** The document in the file is as [JSON.parse] yields it. *)
Definition jsonRead (w : World) : Prop :=
  map JSON.entry (stored w) = stored w.

(** A skill entry named [k]. *)
Definition named (k : string) (m : UsageLog.t) : bool :=
  hasType "skill" m && String.eqb (Invocation.name (UsageLog.invocation m)) k.

(** An entry whose type is none of the three. *)
Definition otherType (m : UsageLog.t) : bool :=
  negb (hasType "skill" m || hasType "command" m || hasType "rule" m).

(** Filters with one field only. *)
Definition byAgent (f : LogFilters.t) : LogFilters.t :=
  {| LogFilters.agent := LogFilters.agent f; LogFilters.startTime := None;
     LogFilters.endTime := None; LogFilters.category := None |}.

Definition byStart (f : LogFilters.t) : LogFilters.t :=
  {| LogFilters.agent := None; LogFilters.startTime := LogFilters.startTime f;
     LogFilters.endTime := None; LogFilters.category := None |}.

Definition byEnd (f : LogFilters.t) : LogFilters.t :=
  {| LogFilters.agent := None; LogFilters.startTime := None;
     LogFilters.endTime := LogFilters.endTime f; LogFilters.category := None |}.

Definition byCategory (f : LogFilters.t) : LogFilters.t :=
  {| LogFilters.agent := None; LogFilters.startTime := None;
     LogFilters.endTime := None; LogFilters.category := LogFilters.category f |}.

(** The filters that bound no time. *)
Definition timeless (f : LogFilters.t) : Prop :=
  LogFilters.startTime f = None /\ LogFilters.endTime f = None.

(** The window of [generateDailySummary]. *)
Definition dayFilters (host : Host) (date : Date) : LogFilters.t :=
  let startOfDay := option_map (Date_startOfLocalDay host) date in
  {| LogFilters.agent := None;
     LogFilters.startTime := Some startOfDay;
     LogFilters.endTime :=
       Some (option_map (fun t => (t + 24 * 60 * 60 * 1000 - 1)%Z) startOfDay);
     LogFilters.category := None |}.

(** [a] may stand before [b] in an order of descending count. *)
Definition moreCounted (a b : string * nat) : Prop := snd b <= snd a.

(** ** More sample data *)

Module Case.

Definition world (f : FileState) (failure : option string) : World :=
  {| file := f;
     writeError := failure;
     clock := Sample.tick;
     clockReads := 0;
     ids := Sample.genId;
     idCalls := 0 |}.


(** A file that does not parse, a file that cannot be opened, a medium
    that rejects the write. *)
Definition corrupt : World := world (Present Malformed) None.

Definition locked : World := world (Unreadable "EACCES") None.


Definition blender : UsageLog.t :=
  Sample.entry "plugin" "blender" "2025-01-12T11:00:00.000Z" true 50 None.

End Case.

(** The comparator [(a, b) => key(b) - key(a)]. *)
Definition descendingBy {A : Type} (key : A -> nat) (a b : A) : Z :=
  (Z.of_nat (key b) - Z.of_nat (key a))%Z.

(** How often a skill named [k] was invoked. *)
Definition invocations (k : string) (metrics : list UsageLog.t) : nat :=
  List.length (filter (named k) metrics).

(** The entries [generateDailySummary] looks at. *)
Definition entriesOfDay (host : Host) (date : Date) (w : World) : list UsageLog.t :=
  filter (fun e => matches host e (dayFilters host date)) (stored w).

Module Day.

Definition eve : UsageLog.t :=
  Sample.entry "skill" "deploy" "2025-01-11T23:59:59.999Z" false 90000 None.

Definition noon : Date := Some 1736683200000%Z.

End Day.

(** * Properties *)

(** ** Numbers *)

Section NumberFacts.

Local Open Scope num_scope.

Lemma sub_diag_zero (x : number) :
  isFinite x = true -> isZero (x - x) = true.
Proof.
  destruct x as [s | s | | s m e]; simpl; try discriminate; intros _.
  - destruct s; reflexivity.
  - unfold Num.sub, SFsub. rewrite Z.sub_diag. reflexivity.
Qed.

Lemma zero_div_nonzero (z x : number) :
  isZero z = true -> isFinite x = true -> isZero x = false ->
  isZero (z / x) = true.
Proof.
  destruct z; try discriminate; destruct x; try discriminate; reflexivity.
Qed.

Lemma zero_div_zero (z x : number) :
  isZero z = true -> isZero x = true -> z / x = NaN.
Proof.
  destruct z; try discriminate; destruct x; try discriminate; reflexivity.
Qed.

Lemma div_by_zero_not_finite (x z : number) :
  isZero z = true -> isFinite (x / z) = false.
Proof.
  destruct z; try discriminate; destruct x; reflexivity.
Qed.

Lemma zero_times_100 (z : number) :
  isZero z = true -> isZero (z * ofZ 100) = true.
Proof.
  destruct z; try discriminate; intros _. vm_compute. reflexivity.
Qed.

Lemma zero_per_hour (z : number) :
  isZero z = true -> isZero (z / ofZ (1000 * 60 * 60)) = true.
Proof.
  destruct z; try discriminate; intros _. vm_compute. reflexivity.
Qed.

End NumberFacts.

(** ** MetricsCalculator *)

Section Calculate.

Variable host : Host.

Lemma calculate_bound (g : number) (metrics : list UsageLog.t) :
  exists m, calculate host (Some g) metrics = Returned m.
Proof. unfold calculate. eauto. Qed.

Lemma calculate_unbound (metrics : list UsageLog.t) :
  calculate host None metrics = Thrown "ReferenceError".
Proof. reflexivity. Qed.

Lemma type_counts (metrics : list UsageLog.t) :
  Forall knownType metrics ->
  List.length (filter (hasType "skill") metrics)
  + List.length (filter (hasType "command") metrics)
  + List.length (filter (hasType "rule") metrics)
  = List.length metrics.
Proof.
  induction 1 as [| m l Hm _ IH]; [reflexivity |].
  assert (E : forall ty,
             hasType ty m = String.eqb (Invocation.type (UsageLog.invocation m)) ty)
    by reflexivity.
  simpl. rewrite !E.
  destruct Hm as [H | [H | H]]; rewrite H; simpl; lia.
Qed.

End Calculate.

(** C1, as stated, fails: on the empty sequence and on a single entry the
    aggregate is undefined, yet [calculate] completes without signalling
    [ComputationUndefined], whether the free identifier is bound or not. *)
Lemma calculate_signals_nothing :
  undefinedAggregate Utc.host []
  /\ undefinedAggregate Utc.host [Sample.started]
  /\ ~ signals (calculate Utc.host None []) "ComputationUndefined"
  /\ ~ signals (calculate Utc.host (Some (ofZ 0)) []) "ComputationUndefined"
  /\ ~ signals (calculate Utc.host (Some (ofZ 0)) [Sample.started])
         "ComputationUndefined".
Proof.
  repeat split.
  - left; reflexivity.
  - right; vm_compute; reflexivity.
  - unfold signals; vm_compute; discriminate.
  - unfold signals; vm_compute; discriminate.
  - unfold signals; vm_compute; discriminate.
Qed.

(** C1 (amended): [calculate] has no guard and never signals
    [ComputationUndefined].  Whenever it returns, on the empty sequence
    [averageDuration], [successRate], [failureRate] and
    [invocationsPerHour] are NaN, and on an input whose timestamp span is
    zero [invocationsPerHour] is a division by zero, a number that is not
    finite. *)
Theorem calculate_without_guard (host : Host) (scope : option number)
  (metrics : list UsageLog.t) :
  ~ signals (calculate host scope metrics) "ComputationUndefined"
  /\ forall g, exists m,
       calculate host (Some g) metrics = Returned m
       /\ (metrics = [] ->
           ProductivityMetrics.averageDuration m = NaN
           /\ ProductivityMetrics.successRate m = NaN
           /\ ProductivityMetrics.failureRate m = NaN
           /\ ProductivityMetrics.invocationsPerHour m = NaN)
       /\ (isZero (timeSpan host metrics) = true ->
           isFinite (ProductivityMetrics.invocationsPerHour m) = false).
Proof.
  split.
  - unfold signals, calculate. destruct scope; discriminate.
  - intros g. eexists. split; [reflexivity |]. split.
    + intros ->. repeat split; reflexivity.
    + intros Hspan. cbn [ProductivityMetrics.invocationsPerHour].
      unfold calculateInvocationsPerHour.
      apply div_by_zero_not_finite, zero_per_hour, Hspan.
Qed.

Lemma calculate_without_guard_witness :
  isZero (timeSpan Utc.host [Sample.started]) = true
  /\ exists m,
       calculate Utc.host (Some (ofZ 0)) [Sample.started] = Returned m
       /\ isFinite (ProductivityMetrics.invocationsPerHour m) = false.
Proof.
  assert (Hspan : isZero (timeSpan Utc.host [Sample.started]) = true)
    by (vm_compute; reflexivity).
  split; [exact Hspan |].
  destruct (calculate_without_guard Utc.host None [Sample.started])
    as [_ H].
  destruct (H (ofZ 0)) as [m [Hm [_ Hinf]]].
  exists m. split; [exact Hm | exact (Hinf Hspan)].
Defined.

(** C6: [tokensPerTask] is not the sum of the tokens over the number of
    entries.  The division reads the free identifier: unbound, the method
    throws a ReferenceError on every input; bound to [g], the field is
    [g / total] whatever tokens the entries used.  On one entry that used
    1500 tokens the claimed value is 1500. *)
Theorem tokensPerTask_reads_free_identifier :
  (forall host metrics,
      calculate host None metrics = Thrown "ReferenceError")
  /\ (forall host g metrics, exists m,
        calculate host (Some g) metrics = Returned m
        /\ ProductivityMetrics.tokensPerTask m
           = (g / ofNat (List.length metrics))%num)
  /\ calculate Utc.host None [Sample.build1] = Thrown "ReferenceError"
  /\ (sumTokensUsed [Sample.build1] / ofNat 1)%num = ofZ 1500
  /\ exists m,
       calculate Utc.host (Some (ofZ 0)) [Sample.build1] = Returned m
       /\ ProductivityMetrics.totalTokensUsed m = ofZ 1500
       /\ ProductivityMetrics.tokensPerTask m = ofZ 0.
Proof.
  split; [reflexivity |].
  split; [intros; eexists; split; reflexivity |].
  split; [reflexivity |].
  split; [vm_compute; reflexivity |].
  eexists. split; [reflexivity |]. split; vm_compute; reflexivity.
Qed.

(** C10: when every entry has one of the three invocation types, the
    metrics [calculate] returns satisfy
    [skillInvocations + commandInvocations + ruleApplications
     = totalInvocations]. *)
Theorem type_counts_partition (host : Host) (g : number)
  (metrics : list UsageLog.t) :
  Forall knownType metrics ->
  exists m,
    calculate host (Some g) metrics = Returned m
    /\ ProductivityMetrics.skillInvocations m
       + ProductivityMetrics.commandInvocations m
       + ProductivityMetrics.ruleApplications m
       = ProductivityMetrics.totalInvocations m.
Proof.
  intros H. eexists. split; [reflexivity |].
  cbn [ProductivityMetrics.skillInvocations
       ProductivityMetrics.commandInvocations
       ProductivityMetrics.ruleApplications
       ProductivityMetrics.totalInvocations].
  apply type_counts, H.
Qed.

Lemma type_counts_partition_witness :
  Forall knownType [Sample.build1; Sample.branch; Sample.undated]
  /\ exists m,
       calculate Utc.host (Some (ofZ 0))
         [Sample.build1; Sample.branch; Sample.undated] = Returned m
       /\ ProductivityMetrics.skillInvocations m
          + ProductivityMetrics.commandInvocations m
          + ProductivityMetrics.ruleApplications m
          = ProductivityMetrics.totalInvocations m.
Proof.
  assert (H : Forall knownType [Sample.build1; Sample.branch; Sample.undated]).
  { repeat apply Forall_cons; try apply Forall_nil;
      unfold knownType; simpl; auto. }
  split; [exact H |].
  exact (type_counts_partition Utc.host (ofZ 0) _ H).
Defined.

(** ** BenchmarkComparator *)

(** C5, as stated, fails: for the entry [beforeExecution] logs, whose
    duration is 0, comparing the one-entry sequence with itself gives NaN
    as [percentImprovement.duration]. *)
Lemma compare_self_not_all_zero :
  exists r,
    compare Utc.host (Some (ofZ 1500)) [Sample.started] [Sample.started]
      = Returned r
    /\ allZero (BenchmarkComparison.improvements r)
    /\ Deltas.duration (BenchmarkComparison.percentImprovement r) = NaN
    /\ ~ allZero (BenchmarkComparison.percentImprovement r).
Proof.
  eexists. split; [vm_compute; reflexivity |].
  split; [repeat split |].
  split; [reflexivity |].
  intros [H _]. vm_compute in H. discriminate.
Qed.

(** C5 (amended): comparing a sequence with itself, when the metrics
    [averageDuration], [successRate] and [tokensPerTask] of the sequence
    are finite numbers, gives zero for every field of [improvements] and
    for [percentImprovement.successRate]; [percentImprovement.duration]
    and [percentImprovement.tokensPerTask] are zero when [averageDuration],
    respectively [tokensPerTask], is not zero, and NaN when it is. *)
Theorem compare_self (host : Host) (g : number) (entries : list UsageLog.t)
  (m : ProductivityMetrics.t) :
  calculate host (Some g) entries = Returned m ->
  isFinite (ProductivityMetrics.averageDuration m) = true ->
  isFinite (ProductivityMetrics.successRate m) = true ->
  isFinite (ProductivityMetrics.tokensPerTask m) = true ->
  exists r,
    compare host (Some g) entries entries = Returned r
    /\ allZero (BenchmarkComparison.improvements r)
    /\ isZero (Deltas.successRate (BenchmarkComparison.percentImprovement r)) = true
    /\ (if isZero (ProductivityMetrics.averageDuration m)
        then Deltas.duration (BenchmarkComparison.percentImprovement r) = NaN
        else isZero (Deltas.duration (BenchmarkComparison.percentImprovement r)) = true)
    /\ (if isZero (ProductivityMetrics.tokensPerTask m)
        then Deltas.tokensPerTask (BenchmarkComparison.percentImprovement r) = NaN
        else isZero (Deltas.tokensPerTask (BenchmarkComparison.percentImprovement r)) = true).
Proof.
  intros Hm Hd Hs Ht. unfold compare. rewrite Hm. cbn [bindC].
  eexists. split; [reflexivity |].
  cbn [BenchmarkComparison.improvements BenchmarkComparison.percentImprovement
       Deltas.duration Deltas.successRate Deltas.tokensPerTask].
  pose proof (sub_diag_zero _ Hd) as Zd.
  pose proof (sub_diag_zero _ Hs) as Zs.
  pose proof (sub_diag_zero _ Ht) as Zt.
  split; [repeat split; assumption |].
  split; [assumption |].
  split.
  - destruct (isZero (ProductivityMetrics.averageDuration m)) eqn:E.
    + rewrite (zero_div_zero _ _ Zd E). reflexivity.
    + apply zero_times_100, zero_div_nonzero; assumption.
  - destruct (isZero (ProductivityMetrics.tokensPerTask m)) eqn:E.
    + rewrite (zero_div_zero _ _ Zt E). reflexivity.
    + apply zero_times_100, zero_div_nonzero; assumption.
Qed.

Lemma compare_self_witness :
  exists r,
    compare Utc.host (Some (ofZ 2000)) [Sample.build1; Sample.build2]
      [Sample.build1; Sample.build2] = Returned r
    /\ allZero (BenchmarkComparison.improvements r)
    /\ allZero (BenchmarkComparison.percentImprovement r).
Proof.
  destruct (calculate_bound Utc.host (ofZ 2000) [Sample.build1; Sample.build2])
    as [m Hm].
  pose proof (compare_self Utc.host (ofZ 2000) _ m Hm) as H.
  vm_compute in Hm. injection Hm as <-.
  destruct (H eq_refl eq_refl eq_refl) as [r [Hr [Hi [Hs [Hd Ht]]]]].
  exists r. split; [exact Hr |]. split; [exact Hi |].
  cbn in Hd, Ht. repeat split; assumption.
Defined.

(** ** UsageLogger *)

Section Logger.

Variable host : Host.

Lemma load_present (w : World) (store : UsageLogStore.t) :
  file w = Present (Document store) -> load host w = (Returned store, w).
Proof.
  intros H. unfold load, tryCatch, bind, readFile, liftC. rewrite H. reflexivity.
Qed.

Lemma load_keeps_file (w w' : World) (c : Completion UsageLogStore.t) :
  load host w = (c, w') -> file w' = file w.
Proof.
  unfold load, tryCatch, bind, readFile, liftC, isoNow, now, ret, throw.
  destruct (file w) as [| code | [store |]] eqn:E; simpl;
    try destruct (String.eqb code "ENOENT");
    intros H; injection H as _ <-; simpl; congruence.
Qed.

Lemma load_stored (w : World) :
  appendOnly w ->
  exists store w',
    load host w = (Returned store, w')
    /\ UsageLogStore.entries store = stored w
    /\ ids w' = ids w /\ idCalls w' = idCalls w
    /\ writeError w' = writeError w.
Proof.
  intros [_ H]. unfold stored.
  destruct (file w) as [| code | [store |]] eqn:E; try contradiction.
  - unfold load, tryCatch, bind, readFile. rewrite E. simpl.
    do 2 eexists. split; [reflexivity |]. simpl. auto.
  - exists store, w. rewrite (load_present _ _ E). auto.
Qed.

Lemma filter_Subsequence {A} (f : A -> bool) (l : list A) :
  Subsequence (filter f l) l.
Proof.
  induction l as [| x l IH]; simpl.
  - constructor.
  - destruct (f x); constructor; exact IH.
Qed.

Lemma filter_idempotent {A} (f : A -> bool) (l : list A) :
  filter f (filter f l) = filter f l.
Proof.
  apply forallb_filter_id, forallb_filter.
Qed.

Lemma filter_none {A} (f : A -> bool) (l : list A) :
  (forall x, In x l -> f x = false) -> filter f l = [].
Proof.
  induction l as [| x l IH]; simpl; intros H; [reflexivity |].
  rewrite (H x (or_introl eq_refl)). apply IH. intros y Hy. apply H. now right.
Qed.

Lemma truthyString_spec (s : string) : truthyString s = true <-> s <> "".
Proof.
  unfold truthyString. destruct (String.eqb_spec s ""); simpl; split;
    congruence.
Qed.

Lemma matches_passes (entry : UsageLog.t) (filters : LogFilters.t) :
  matches host entry filters = true <-> passes host entry filters.
Proof.
  unfold matches, passes, guard.
  destruct filters as [fa fs fe fc]; simpl.
  set (p := Date_parse host (UsageLog.timestamp entry)).
  split.
  - intros H. repeat split.
    + intros a [= ->] Ha. apply truthyString_spec in Ha. rewrite Ha in H.
      simpl in H. destruct (String.eqb_spec (UsageLog.agent entry) a);
        [assumption | discriminate].
    + intros c [= ->] Hc. apply truthyString_spec in Hc. rewrite Hc in H.
      simpl in H.
      destruct (String.eqb_spec (Invocation.category (UsageLog.invocation entry)) c);
        [assumption |].
      simpl in H. repeat match type of H with
        | (if ?b then _ else _) = _ => destruct b; try discriminate
        end.
    + intros u t [= ->] Ht. rewrite Ht in H. unfold Date_ltb in H. simpl in H.
      destruct (Z.ltb_spec t u); [| lia].
      repeat match type of H with
        | (if ?b then _ else _) = _ => destruct b; try discriminate
        end.
    + intros u t [= ->] Ht. rewrite Ht in H.
      unfold Date_gtb, Date_ltb in H. simpl in H.
      destruct (Z.ltb_spec u t); [| lia].
      repeat match type of H with
        | (if ?b then _ else _) = _ => destruct b; try discriminate
        end.
  - intros [Ha [Hc [Hs He]]].
    assert (Ea : match fa with
                 | Some a => truthyString a
                             && negb (String.eqb (UsageLog.agent entry) a)
                 | None => false
                 end = false).
    { destruct fa as [a |]; [| reflexivity].
      destruct (truthyString a) eqn:T; [| reflexivity].
      apply truthyString_spec in T. rewrite (Ha a eq_refl T), String.eqb_refl.
      reflexivity. }
    assert (Ec : match fc with
                 | Some c => truthyString c
                             && negb (String.eqb
                                  (Invocation.category (UsageLog.invocation entry)) c)
                 | None => false
                 end = false).
    { destruct fc as [c |]; [| reflexivity].
      destruct (truthyString c) eqn:T; [| reflexivity].
      apply truthyString_spec in T. rewrite (Hc c eq_refl T), String.eqb_refl.
      reflexivity. }
    assert (Es : match fs with
                 | Some startTime => Date_ltb p startTime
                 | None => false
                 end = false).
    { destruct fs as [[u |] |]; [| destruct p; reflexivity | reflexivity].
      destruct p as [t |] eqn:P; [| reflexivity]. simpl.
      apply Z.ltb_ge. apply (Hs u t); auto. }
    assert (Ee : match fe with
                 | Some endTime => Date_gtb p endTime
                 | None => false
                 end = false).
    { destruct fe as [[u |] |]; [| destruct p; reflexivity | reflexivity].
      destruct p as [t |] eqn:P; [| reflexivity]. unfold Date_gtb. simpl.
      apply Z.ltb_ge. apply (He u t); auto. }
    rewrite Ea, Es, Ee, Ec. reflexivity.
Qed.

End Logger.

(** C3, as stated, fails: with the agent filter [""] the entry of agent
    [sisyphus] is returned though its agent is not the filter's, and with
    a start time an entry whose timestamp is no date is returned though
    its timestamp is not at or after the bound. *)
Lemma query_returns_unsatisfying_entries :
  fst (query Utc.host Sample.emptyAgent (Sample.holding [Sample.build1]))
    = Returned [Sample.build1]
  /\ satisfiesEvery Utc.host Sample.build1 Sample.emptyAgent = false
  /\ fst (query Utc.host Sample.sinceEpoch (Sample.holding [Sample.undated]))
       = Returned [Sample.undated]
  /\ satisfiesEvery Utc.host Sample.undated Sample.sinceEpoch = false.
Proof. repeat split; vm_compute; reflexivity. Qed.

(** C3 (amended): [query] leaves the file as it is and returns the stored
    entries that [matches] lets through, in their order: all of them
    without filters; with filters, those that agree with every agent and
    category filter that is not the empty string and whose timestamp, when
    it is a valid date, is not before a valid [startTime] nor after a valid
    [endTime].  It returns the empty sequence, not an error, when no entry
    passes, and filtering its result again changes nothing. *)
Theorem query_is_filter (host : Host) (filters : LogFilters.t)
  (w w' : World) (store : UsageLogStore.t) :
  load host w = (Returned store, w') ->
  let entries := UsageLogStore.entries store in
  let result := filter (fun e => matches host e filters) entries in
  file w' = file w
  /\ query host filters w = (Returned result, w')
  /\ query host LogFilters.none w = (Returned entries, w')
  /\ Subsequence result entries
  /\ (forall e, In e result <-> In e entries /\ passes host e filters)
  /\ ((forall e, In e entries -> ~ passes host e filters) -> result = [])
  /\ filter (fun e => matches host e filters) result = result.
Proof.
  intros Hload entries result.
  split; [exact (load_keeps_file _ _ _ _ Hload) |].
  split; [unfold query, bind; rewrite Hload; reflexivity |].
  split.
  { unfold query, bind. rewrite Hload. unfold ret. f_equal. f_equal.
    fold entries. apply forallb_filter_id, forallb_forall. reflexivity. }
  split; [apply filter_Subsequence |].
  split.
  { intros e. unfold result. rewrite filter_In, matches_passes. reflexivity. }
  split; [| apply filter_idempotent].
  intros Hnone. apply filter_none. intros e He.
  destruct (matches host e filters) eqn:E; [| reflexivity].
  apply matches_passes in E. destruct (Hnone e He E).
Qed.

Lemma query_is_filter_witness :
  query Utc.host Sample.sinceEpoch
    (Sample.holding [Sample.build1; Sample.undated])
  = (Returned [Sample.build1; Sample.undated],
     Sample.holding [Sample.build1; Sample.undated]).
Proof.
  pose proof (query_is_filter Utc.host Sample.sinceEpoch
                (Sample.holding [Sample.build1; Sample.undated]) _ _
                (load_present Utc.host
                   (Sample.holding [Sample.build1; Sample.undated]) _ eq_refl))
    as H.
  destruct H as [_ [H _]]. exact H.
Defined.

Lemma JSON_number_idempotent (v : NumberValue) :
  JSON.number (JSON.number v) = JSON.number v.
Proof.
  destruct v as [x | |]; try reflexivity. simpl.
  destruct x as [sg | sg | | sg m e]; reflexivity.
Qed.

Lemma JSON_error_idempotent (e : ErrorValue) :
  JSON.error (JSON.error e) = JSON.error e.
Proof. destruct e; reflexivity. Qed.

Lemma JSON_entry_idempotent (e : UsageLog.t) :
  JSON.entry (JSON.entry e) = JSON.entry e.
Proof.
  unfold JSON.entry. simpl. f_equal.
  - unfold JSON.outcome. simpl. now rewrite !JSON_number_idempotent.
  - destruct (UsageLog.metadata e) as [m |]; [| reflexivity]. simpl.
    unfold JSON.metadata. simpl. do 2 f_equal.
    destruct (Metadata.errors m) as [l |]; [| reflexivity]. simpl. f_equal.
    rewrite map_map. apply map_ext, JSON_error_idempotent.
Qed.

Lemma JSON_entry_stamp (i ts : string) (e : UsageLog.t) :
  JSON.entry (UsageLog.stamp i ts e) = UsageLog.stamp i ts (JSON.entry e).
Proof. reflexivity. Qed.

Lemma idsOf_JSON (l : list UsageLog.t) : idsOf (map JSON.entry l) = idsOf l.
Proof. unfold idsOf. rewrite map_map. reflexivity. Qed.

(** C2, as stated, fails: an entry whose metadata holds an [Error], or
    whose duration is NaN, does not come back from [load] equal to what
    was logged: the error is read back as an empty object, the duration as
    [null]. *)
Lemma load_returns_json_reading :
  (exists store e',
     fst ((log Utc.host Sample.crashed ;;; load Utc.host) Sample.fresh)
       = Returned store
     /\ UsageLogStore.entries store = [e']
     /\ option_map Metadata.errors (UsageLog.metadata e')
        = Some (Some [ObjectLiteral []])
     /\ ~ sameButStamp e' Sample.crashed)
  /\ (exists store e',
        fst ((log Utc.host Sample.unmeasured ;;; load Utc.host) Sample.fresh)
          = Returned store
        /\ UsageLogStore.entries store = [e']
        /\ Outcome.duration (UsageLog.outcome e') = Null
        /\ ~ sameButStamp e' Sample.unmeasured).
Proof.
  split; do 2 eexists;
    (split; [vm_compute; reflexivity |]);
    (split; [reflexivity |]);
    (split; [reflexivity |]);
    intros [_ [_ [_ [Ho Hm]]]]; vm_compute in Ho, Hm; discriminate.
Qed.

(** C2 (amended): in a store written through [log] only, on a medium
    that accepts the write, [log] succeeds and [load] right after it
    returns the entries stored before followed by the logged entry as it
    reads back from JSON, which differs from it in [id] and [timestamp]
    only when the entry is its own JSON reading (finite numbers, no
    [Error] instances); the ids of the loaded collection are pairwise
    distinct, given that [generateId] never returns the same id twice. *)
Theorem log_then_load (host : Host) (w : World) (entry : UsageLog.t) :
  appendOnly w ->
  writeError w = None ->
  exists w1 w2 store e',
    log host entry w = (Returned tt, w1)
    /\ load host w1 = (Returned store, w2)
    /\ UsageLogStore.entries store = stored w ++ [e']
    /\ sameButStamp e' (JSON.entry entry)
    /\ (JSON.entry entry = entry -> sameButStamp e' entry)
    /\ UsageLog.id e' = ids w (idCalls w)
    /\ NoDup (idsOf (UsageLogStore.entries store))
    /\ appendOnly w1.
Proof.
  intros [Hinj Hfile] Hwrite.
  assert (Hfresh : forall prev,
             map JSON.entry prev = prev ->
             NoDup (idsOf prev) ->
             Forall (fun i => exists k, k < idCalls w /\ ids w k = i) (idsOf prev) ->
             forall ts,
               let e' := JSON.entry (UsageLog.stamp (ids w (idCalls w)) ts entry) in
               map JSON.entry (prev ++ [UsageLog.stamp (ids w (idCalls w)) ts entry])
               = prev ++ [e']
               /\ map JSON.entry (prev ++ [e']) = prev ++ [e']
               /\ NoDup (idsOf (prev ++ [e']))
               /\ Forall (fun i => exists k, k < S (idCalls w) /\ ids w k = i)
                    (idsOf (prev ++ [e']))).
  { intros prev Hjson Hnd Hall ts e'.
    split; [rewrite map_app, Hjson; reflexivity |].
    split; [rewrite map_app, Hjson; simpl; unfold e';
            rewrite JSON_entry_idempotent; reflexivity |].
    unfold idsOf. rewrite map_app. simpl. split.
    - apply NoDup_app; [exact Hnd | repeat constructor; intros [] |].
      intros a Ha [<- | []]. rewrite Forall_forall in Hall.
      destruct (Hall _ Ha) as [k [Hk Hid]]. apply Hinj in Hid. lia.
    - apply Forall_app. split.
      + eapply Forall_impl; [| exact Hall].
        intros a [k [Hk Hid]]. exists k. split; [lia | exact Hid].
      + repeat constructor. exists (idCalls w). split; [lia | reflexivity]. }
  assert (Hsame : forall i ts,
             sameButStamp (JSON.entry (UsageLog.stamp i ts entry)) (JSON.entry entry)
             /\ (JSON.entry entry = entry ->
                 sameButStamp (JSON.entry (UsageLog.stamp i ts entry)) entry)).
  { intros i ts. split; [repeat split |].
    intros E. rewrite JSON_entry_stamp, E. repeat split. }
  unfold stored.
  destruct (file w) as [| code | [store0 |]] eqn:E; try contradiction.
  - destruct (Hfresh [] eq_refl (NoDup_nil _) (Forall_nil _)
                (Date_toISOString host (clock w (S (clockReads w)))))
      as [Hw [Hjson [Hnd Hall]]].
    destruct (Hsame (ids w (idCalls w))
                (Date_toISOString host (clock w (S (clockReads w)))))
      as [S1 S2].
    do 4 eexists.
    split.
    { unfold log, load, tryCatch, bind, readFile. rewrite E. simpl.
      unfold writeFile. simpl. rewrite Hwrite. reflexivity. }
    split; [apply load_present; reflexivity |].
    simpl. split; [reflexivity |].
    split; [exact S1 |]. split; [exact S2 |].
    split; [reflexivity |].
    split; [exact Hnd |].
    split; [exact Hinj | simpl; split; [exact Hjson | split; [exact Hnd | exact Hall]]].
  - destruct Hfile as [Hjson0 [Hnd0 Hall0]].
    destruct (Hfresh _ Hjson0 Hnd0 Hall0
                (Date_toISOString host (clock w (clockReads w))))
      as [Hw [Hjson [Hnd Hall]]].
    destruct (Hsame (ids w (idCalls w))
                (Date_toISOString host (clock w (clockReads w))))
      as [S1 S2].
    do 4 eexists.
    split.
    { unfold log, bind. rewrite (load_present _ _ _ E).
      unfold generateId, isoNow, save, bind, now, ret, writeFile,
        JSON_stringify, JSON.store. simpl.
      rewrite Hwrite, Hw. reflexivity. }
    split; [apply load_present; reflexivity |].
    simpl. split; [reflexivity |].
    split; [exact S1 |]. split; [exact S2 |].
    split; [reflexivity |].
    split; [exact Hnd |].
    split; [exact Hinj | simpl; split; [exact Hjson | split; [exact Hnd | exact Hall]]].
Qed.

Lemma tally_injective (j k : nat) : Sample.tally j = Sample.tally k -> j = k.
Proof.
  revert k. induction j as [| j IH]; destruct k as [| k]; simpl;
    try discriminate; [reflexivity |].
  intros [= H]. f_equal. apply IH, H.
Qed.

Lemma fresh_appendOnly : appendOnly Sample.fresh.
Proof.
  split; [| exact I].
  intros j k [= H]. apply tally_injective, H.
Qed.

Lemma log_then_load_witness :
  exists w1 w2 store e',
    log Utc.host Sample.build1 Sample.fresh = (Returned tt, w1)
    /\ load Utc.host w1 = (Returned store, w2)
    /\ UsageLogStore.entries store = [e']
    /\ sameButStamp e' Sample.build1
    /\ UsageLog.id e' = "#"
    /\ NoDup (idsOf (UsageLogStore.entries store)).
Proof.
  destruct (log_then_load Utc.host Sample.fresh Sample.build1
              fresh_appendOnly eq_refl)
    as [w1 [w2 [store [e' [H1 [H2 [H3 [_ [H4 [H5 [H6 _]]]]]]]]]]].
  exists w1, w2, store, e'.
  split; [exact H1 |]. split; [exact H2 |]. split; [exact H3 |].
  split; [apply H4; reflexivity |]. split; [exact H5 | exact H6].
Defined.

(** ** UsageAnalyzer *)

Lemma set_ownProperties {V} (k : string) (v : V) (m : JsMap.t V) :
  JsMap.ownProperties (JsMap.set k v m) = JsMap.ownProperties m.
Proof. reflexivity. Qed.

Lemma groupBySkill_ownProperties (metrics : list UsageLog.t) :
  JsMap.ownProperties (groupBySkill metrics) = [].
Proof.
  unfold groupBySkill.
  assert (H : forall (groups : JsMap.t (list UsageLog.t)),
             JsMap.ownProperties groups = [] ->
             JsMap.ownProperties
               (fold_left
                  (fun groups m =>
                     if hasType "skill" m then
                       let skill := Invocation.name (UsageLog.invocation m) in
                       let groups :=
                         if negb (JsMap.has skill groups)
                         then JsMap.set skill [] groups
                         else groups in
                       match JsMap.get skill groups with
                       | Some group => JsMap.set skill (group ++ [m]) groups
                       | None => groups
                       end
                     else groups)
                  metrics groups) = []).
  { induction metrics as [| m l IH]; intros groups Hg; [exact Hg |].
    simpl. apply IH.
    destruct (hasType "skill" m); [| exact Hg].
    destruct (negb (JsMap.has _ groups));
      match goal with
      | |- context [JsMap.get ?k ?g] => destruct (JsMap.get k g)
      end; exact Hg. }
  apply H. reflexivity.
Qed.

(** C4: [analyzePatterns] returns no pattern at all.  [groupBySkill]
    builds a [Map], and the loop runs over [Object.entries] of it, the own
    properties, of which a [Map] has none; [getTopSkills] iterates its
    [Map] through [entries()].  For the two [build] entries of the
    scenario the frequencies sum to 0, not to 2; the same loop run over
    the entries of the [Map] yields the expected pattern. *)
Theorem analyzePatterns_returns_no_pattern :
  (forall metrics, analyzePatterns metrics = Returned [])
  /\ skillCount [Sample.build1; Sample.build2] = 2
  /\ (forall patterns,
        analyzePatterns [Sample.build1; Sample.build2] = Returned patterns ->
        totalFrequency patterns = 0)
  /\ patternsOf (JsMap.entries (groupBySkill [Sample.build1; Sample.build2]))
     = Returned [Sample.buildPattern].
Proof.
  assert (H : forall metrics, analyzePatterns metrics = Returned []).
  { intros metrics. unfold analyzePatterns, JsMap.Object_entries.
    rewrite groupBySkill_ownProperties. reflexivity. }
  split; [exact H |].
  split; [reflexivity |].
  split; [| vm_compute; reflexivity].
  intros patterns Hp. rewrite H in Hp. injection Hp as <-. reflexivity.
Qed.

Lemma mapC_In {A B} (f : A -> Completion B) (l : list A) (r : list B) :
  mapC f l = Returned r ->
  forall y, In y r -> exists x, In x l /\ f x = Returned y.
Proof.
  revert r. induction l as [| x l IH]; simpl; intros r H y Hy.
  - injection H as <-. destruct Hy.
  - destruct (f x) as [b |] eqn:Fx; simpl in H; [| discriminate].
    destruct (mapC f l) as [bs |]; simpl in H; [| discriminate].
    injection H as <-. destruct Hy as [<- | Hy].
    + exists x. auto.
    + destruct (IH bs eq_refl y Hy) as [x' [Hx' Hf]]. exists x'. auto.
Qed.

Lemma insertSorted_In {A} (compare : A -> A -> Z) (x y : A) (l : list A) :
  In y (insertSorted compare x l) <-> y = x \/ In y l.
Proof.
  induction l as [| z l IH]; simpl.
  - intuition.
  - destruct (compare x z >? 0)%Z; simpl; [rewrite IH |]; intuition.
Qed.

Lemma sort_In {A} (compare : A -> A -> Z) (y : A) (l : list A) :
  In y (sort compare l) <-> In y l.
Proof.
  induction l as [| x l IH]; simpl; [reflexivity |].
  rewrite insertSorted_In, IH. intuition.
Qed.

Lemma getTimeOfDay_buckets (hour : Z) :
  ((5 <= hour < 12)%Z -> getTimeOfDay (Some hour) = morning)
  /\ ((12 <= hour < 17)%Z -> getTimeOfDay (Some hour) = afternoon)
  /\ ((17 <= hour < 21)%Z -> getTimeOfDay (Some hour) = evening)
  /\ ((hour < 5 \/ 21 <= hour)%Z -> getTimeOfDay (Some hour) = night).
Proof.
  unfold getTimeOfDay.
  destruct (Z.leb_spec 5 hour), (Z.ltb_spec hour 12),
    (Z.leb_spec 12 hour), (Z.ltb_spec hour 17),
    (Z.leb_spec 17 hour), (Z.ltb_spec hour 21); simpl;
    repeat split; intros; try reflexivity; lia.
Qed.

Section SplitFacts.

Variable sep : ascii.

Lemma split_nonempty (s : string) : exists h t, split sep s = h :: t.
Proof.
  induction s as [| c s [h [t IH]]]; simpl; [eauto |].
  destruct (Ascii.eqb c sep); [eauto |]. rewrite IH. eauto.
Qed.

Lemma split_prefix (a rest : string) (h : string) (t : list string) :
  lacks sep a = true ->
  split sep rest = h :: t ->
  split sep (a ++ rest)%string = (a ++ h)%string :: t.
Proof.
  intros Ha Hr. induction a as [| c a IH]; simpl in *; [exact Hr |].
  apply andb_prop in Ha. destruct Ha as [Hc Ha].
  destruct (Ascii.eqb c sep); [discriminate |].
  rewrite (IH Ha). reflexivity.
Qed.

Lemma split_prefix_tail (a rest : string) (n : nat) :
  lacks sep a = true ->
  nth_error (split sep (a ++ rest)%string) (S n)
  = nth_error (split sep rest) (S n).
Proof.
  intros Ha. destruct (split_nonempty rest) as [h [t Hr]].
  rewrite (split_prefix a rest h t Ha Hr), Hr. reflexivity.
Qed.

Lemma split_prefix_head (a rest : string) :
  lacks sep a = true ->
  exists h, nth_error (split sep (a ++ rest)%string) 0 = Some (a ++ h)%string.
Proof.
  intros Ha. destruct (split_nonempty rest) as [h [t Hr]].
  rewrite (split_prefix a rest h t Ha Hr). simpl. eauto.
Qed.

Lemma lacks_app (a b : string) :
  lacks sep a = true -> lacks sep b = true -> lacks sep (a ++ b)%string = true.
Proof.
  intros Ha Hb. induction a as [| c a IH]; simpl in *; [exact Hb |].
  apply andb_prop in Ha. destruct Ha as [-> Ha]. simpl. apply IH, Ha.
Qed.

End SplitFacts.

Lemma digit_cases (n : Z) :
  let d := (n mod 10)%Z in
  (d = 0 \/ d = 1 \/ d = 2 \/ d = 3 \/ d = 4
   \/ d = 5 \/ d = 6 \/ d = 7 \/ d = 8 \/ d = 9)%Z.
Proof.
  intros d. assert (0 <= d < 10)%Z by (apply Z.mod_pos_bound; lia). lia.
Qed.

Lemma pad_lacks_T (k : nat) (n : Z) : lacks "T" (Utc.pad k n) = true.
Proof.
  revert n. induction k as [| k IH]; intros n; simpl; [reflexivity |].
  apply lacks_app; [apply IH |].
  pose proof (digit_cases n) as H. simpl in H.
  repeat (destruct H as [-> | H]; [reflexivity |]). rewrite H. reflexivity.
Qed.

Lemma utcHour_cases (t : Z) :
  In (utcHour t)
    [0; 1; 2; 3; 4; 5; 6; 7; 8; 9; 10; 11; 12; 13; 14; 15; 16; 17; 18; 19;
     20; 21; 22; 23]%Z.
Proof.
  unfold utcHour.
  assert (0 <= t mod 86400000 < 86400000)%Z by (apply Z.mod_pos_bound; lia).
  assert (0 <= t mod 86400000 / 3600000 < 24)%Z.
  { split; [apply Z.div_pos; lia | apply Z.div_lt_upper_bound; lia]. }
  simpl. lia.
Qed.

(** The hour [analyzePatterns] reads off a timestamp written by
    [toISOString] is the UTC hour of the day of that instant. *)
Lemma hourOf_toISOString (t : Z) (m : UsageLog.t) :
  UsageLog.timestamp m = Utc.toISOString t -> hourOf m = Some (utcHour t).
Proof.
  intros E. unfold hourOf. rewrite E. unfold Utc.toISOString.
  destruct (Utc.civilFromDays (t / 86400000)) as [[y mo] d].
  rewrite (split_prefix_tail "T" (Utc.pad 4 y)) by apply pad_lacks_T.
  rewrite (split_prefix_tail "T" "-") by reflexivity.
  rewrite (split_prefix_tail "T" (Utc.pad 2 mo)) by apply pad_lacks_T.
  rewrite (split_prefix_tail "T" "-") by reflexivity.
  rewrite (split_prefix_tail "T" (Utc.pad 2 d)) by apply pad_lacks_T.
  change (nth_error (split "T" ("T" ++ ?x)%string) 1)
    with (nth_error (split "T" x) 0).
  fold (utcHour t).
  match goal with
  | |- context [(Utc.pad 2 (utcHour t) ++ ":" ++ ?x)%string] =>
      destruct (split_prefix_head "T" (Utc.pad 2 (utcHour t) ++ ":") x)
        as [h Hh]; [apply lacks_app; [apply pad_lacks_T | reflexivity] |]
  end.
  assert (A : forall a b c : string,
             ((a ++ b) ++ c)%string = (a ++ b ++ c)%string).
  { intros a b c. induction a as [| ch a IH]; simpl; [| rewrite IH];
      reflexivity. }
  rewrite A in Hh. rewrite Hh. simpl parseIntOpt.
  pose proof (utcHour_cases t) as H. simpl in H.
  repeat (destruct H as [<- | H]; [vm_compute; reflexivity |]).
  destruct H.
Qed.

(** C9: every pattern the loop of [analyzePatterns] produces comes from a
    group with a first entry, and its [timeOfDay] is the bucket of the hour
    read off that first entry alone: morning for an hour in [5,12),
    afternoon in [12,17), evening in [17,21), night otherwise, also when no
    hour can be read; for a timestamp written by [toISOString] that hour is
    the hour of the day. *)
Theorem timeOfDay_of_first_entry (groups : list (string * list UsageLog.t))
  (patterns : list UsagePattern.t) :
  patternsOf groups = Returned patterns ->
  forall p, In p patterns ->
  exists skill first rest,
    In (skill, first :: rest) groups
    /\ UsagePattern.skill p = skill
    /\ UsagePattern.timeOfDay p = getTimeOfDay (hourOf first)
    /\ match hourOf first with
       | Some hour =>
           ((5 <= hour < 12)%Z -> UsagePattern.timeOfDay p = morning)
           /\ ((12 <= hour < 17)%Z -> UsagePattern.timeOfDay p = afternoon)
           /\ ((17 <= hour < 21)%Z -> UsagePattern.timeOfDay p = evening)
           /\ ((hour < 5 \/ 21 <= hour)%Z -> UsagePattern.timeOfDay p = night)
       | None => UsagePattern.timeOfDay p = night
       end
    /\ forall t, UsageLog.timestamp first = Utc.toISOString t ->
                 hourOf first = Some (utcHour t).
Proof.
  unfold patternsOf. intros H p Hp.
  destruct (mapC patternOf groups) as [ps |] eqn:M; simpl in H; [| discriminate].
  injection H as <-. apply sort_In in Hp.
  destruct (mapC_In _ _ _ M p Hp) as [[skill skillMetrics] [Hg Hpat]].
  unfold patternOf in Hpat.
  destruct skillMetrics as [| first rest]; [discriminate |].
  injection Hpat as <-. exists skill, first, rest.
  cbn [UsagePattern.skill UsagePattern.timeOfDay].
  split; [exact Hg |]. split; [reflexivity |]. split; [reflexivity |].
  split; [| intros t; apply hourOf_toISOString].
  destruct (hourOf first) as [hour |]; [apply getTimeOfDay_buckets | reflexivity].
Qed.

Lemma timeOfDay_of_first_entry_witness :
  exists skill first rest,
    In (skill, first :: rest)
      (JsMap.entries (groupBySkill [Sample.build1; Sample.build2]))
    /\ skill = "build"
    /\ hourOf first = Some 9%Z
    /\ UsagePattern.timeOfDay Sample.buildPattern = morning.
Proof.
  destruct (timeOfDay_of_first_entry
              (JsMap.entries (groupBySkill [Sample.build1; Sample.build2]))
              [Sample.buildPattern])
    with (p := Sample.buildPattern)
    as [skill [first [rest [Hin [Hs [Ht _]]]]]].
  - vm_compute. reflexivity.
  - left. reflexivity.
  - exists skill, first, rest. split; [exact Hin |].
    split; [symmetry; exact Hs |].
    vm_compute in Hin. destruct Hin as [Hin | []].
    injection Hin as _ <- _. split; reflexivity.
Defined.

(** ** ReportGenerator *)

Lemma generateInsights_shape (m : ProductivityMetrics.t)
  (skill : string) (count : nat) (rest : list (string * nat)) :
  generateInsights m ((skill, count) :: rest)
  = Returned
      ((if Num.ltb (ProductivityMetrics.successRate m) (ofZ 80)
        then [LowSuccessRate (ProductivityMetrics.successRate m)] else [])
       ++ (if Num.gtb (ProductivityMetrics.averageDuration m) (ofZ 30000)
           then [HighAverageDuration (ProductivityMetrics.averageDuration m)]
           else [])
       ++ (if Num.ltb (ProductivityMetrics.invocationsPerHour m) (ofZ 5)
           then [LowInvocationsPerHour (ProductivityMetrics.invocationsPerHour m)]
           else [])
       ++ [MostUsedSkill skill count]).
Proof.
  unfold generateInsights.
  destruct (Num.ltb (ProductivityMetrics.successRate m) (ofZ 80)),
    (Num.gtb (ProductivityMetrics.averageDuration m) (ofZ 30000)),
    (Num.ltb (ProductivityMetrics.invocationsPerHour m) (ofZ 5));
    reflexivity.
Qed.

(** C7: [generateInsights] has three rules, not six: a success rate
    below 80, an average duration above 30000 ms, fewer than 5 invocations
    per hour.  At the figures of the analytics guide (95 % success, 3.5 s,
    12.5 per hour) it produces the most-used-skill insight alone, and for a
    day of two fast, successful invocations the summary has no insight on
    the success rate or on the duration. *)
Theorem generateInsights_three_rules :
  (forall m skill count rest,
      generateInsights m ((skill, count) :: rest)
      = Returned
          ((if Num.ltb (ProductivityMetrics.successRate m) (ofZ 80)
            then [LowSuccessRate (ProductivityMetrics.successRate m)] else [])
           ++ (if Num.gtb (ProductivityMetrics.averageDuration m) (ofZ 30000)
               then [HighAverageDuration (ProductivityMetrics.averageDuration m)]
               else [])
           ++ (if Num.ltb (ProductivityMetrics.invocationsPerHour m) (ofZ 5)
               then [LowInvocationsPerHour (ProductivityMetrics.invocationsPerHour m)]
               else [])
           ++ [MostUsedSkill skill count]))
  /\ generateInsights Sample.excellent [("analyze-codebase", 15)]
     = Returned [MostUsedSkill "analyze-codebase" 15]
  /\ exists summary perHour,
       fst (generateDailySummary Utc.host (Some (ofZ 0))
              (Some 1736692200000%Z)
              (Sample.holding [Sample.build1; Sample.branch]))
       = Returned summary
       /\ DailySummary.successRate summary = ofZ 100
       /\ DailySummary.averageDuration summary = ofZ 600
       /\ DailySummary.insights summary
          = [LowInvocationsPerHour perHour; MostUsedSkill "build" 1].
Proof.
  split; [exact generateInsights_shape |].
  split; [vm_compute; reflexivity |].
  do 2 eexists. split; [vm_compute; reflexivity |].
  repeat split; vm_compute; reflexivity.
Qed.

Lemma update_nonempty {V} (k : string) (v : V) (l : list (string * V)) :
  JsMap.update k v l <> [].
Proof.
  destruct l as [| [k' v'] l]; simpl; [discriminate |].
  destruct (String.eqb k' k); discriminate.
Qed.

Lemma insertSorted_nonempty {A} (compare : A -> A -> Z) (x : A) (l : list A) :
  insertSorted compare x l <> [].
Proof.
  destruct l as [| y l]; simpl; [discriminate |].
  destruct (compare x y >? 0)%Z; discriminate.
Qed.

Lemma sort_nonempty {A} (compare : A -> A -> Z) (l : list A) :
  l <> [] -> sort compare l <> [].
Proof.
  destruct l as [| x l]; [congruence |]. intros _. simpl.
  apply insertSorted_nonempty.
Qed.

Lemma countSkills_nonempty (metrics : list UsageLog.t) :
  skillCount metrics <> 0 -> JsMap.entries (countSkills metrics) <> [].
Proof.
  unfold skillCount, countSkills, JsMap.entries.
  set (step := fun (skillCounts : JsMap.t nat) (m : UsageLog.t) =>
                 if hasType "skill" m then
                   let skill := Invocation.name (UsageLog.invocation m) in
                   let count :=
                     match JsMap.get skill skillCounts with
                     | Some c => c
                     | None => 0
                     end in
                   JsMap.set skill (count + 1) skillCounts
                 else skillCounts).
  assert (Keep : forall l acc,
             JsMap.mapData acc <> [] ->
             JsMap.mapData (fold_left step l acc) <> []).
  { induction l as [| m l IH]; intros acc Hacc; simpl; [exact Hacc |].
    apply IH. unfold step. destruct (hasType "skill" m); [| exact Hacc].
    simpl. apply update_nonempty. }
  generalize (@JsMap.new nat).
  induction metrics as [| m l IH]; intros acc H; simpl in *; [congruence |].
  destruct (hasType "skill" m) eqn:E.
  - apply Keep. unfold step. rewrite E. simpl. apply update_nonempty.
  - unfold step at 2. rewrite E. apply IH, H.
Qed.

Lemma getTopSkills_nonempty (metrics : list UsageLog.t) :
  skillCount metrics <> 0 ->
  exists skill count rest, getTopSkills metrics 5 = (skill, count) :: rest.
Proof.
  intros H. unfold getTopSkills, slice0.
  pose proof (sort_nonempty byCountDesc _ (countSkills_nonempty _ H)) as Hs.
  destruct (sort byCountDesc (JsMap.entries (countSkills metrics)))
    as [| [skill count] rest]; [congruence |].
  exists skill, count, (firstn 4 rest). reflexivity.
Qed.

(** C8: with at least one skill invocation among the entries,
    [generateInsights] ends its result with the most-used-skill insight for
    the head of [getTopSkills].  With none, [topSkills[0]] is undefined and
    reading its [skill] throws a TypeError: the summary of a day that has a
    command only, or no entry at all, fails instead of omitting the
    insight. *)
Theorem generateInsights_without_skill :
  (forall m metrics,
      skillCount metrics <> 0 ->
      exists skill count rest before,
        getTopSkills metrics 5 = (skill, count) :: rest
        /\ generateInsights m (getTopSkills metrics 5)
           = Returned (before ++ [MostUsedSkill skill count]))
  /\ (forall m, generateInsights m [] = Thrown "TypeError")
  /\ skillCount [Sample.branch] = 0
  /\ getTopSkills [Sample.branch] 5 = []
  /\ fst (generateDailySummary Utc.host (Some (ofZ 0)) (Some 1736692200000%Z)
            (Sample.holding [Sample.branch])) = Thrown "TypeError"
  /\ fst (generateDailySummary Utc.host (Some (ofZ 0)) (Some 1736692200000%Z)
            Sample.fresh) = Thrown "TypeError".
Proof.
  split.
  { intros m metrics H.
    destruct (getTopSkills_nonempty metrics H) as [skill [count [rest E]]].
    exists skill, count, rest. rewrite E, generateInsights_shape.
    eexists. split; [reflexivity |].
    rewrite !app_assoc. reflexivity. }
  split; [reflexivity |].
  repeat split; vm_compute; reflexivity.
Qed.

(** ** The loop of [analyzePatterns] over the entries of the [Map]

    What [analyzePatterns] would return, had it iterated
    [skills.entries()]: the facts C4 states hold of that result. *)

Section MapFacts.

Context {V : Type}.

Lemma lookup_update (k : string) (v : V) (l : list (string * V)) :
  JsMap.lookup k (JsMap.update k v l) = Some v.
Proof.
  induction l as [| [k' v'] l IH]; simpl.
  - rewrite String.eqb_refl. reflexivity.
  - destruct (String.eqb k' k) eqn:E; simpl; rewrite E; [reflexivity | exact IH].
Qed.

Lemma update_update (k : string) (v0 v : V) (l : list (string * V)) :
  JsMap.update k v (JsMap.update k v0 l) = JsMap.update k v l.
Proof.
  induction l as [| [k' v'] l IH]; simpl.
  - rewrite String.eqb_refl. reflexivity.
  - destruct (String.eqb k' k) eqn:E; simpl; rewrite E; [| rewrite IH];
      reflexivity.
Qed.

Lemma Forall_update (P : string * V -> Prop) (k : string) (v : V)
  (l : list (string * V)) :
  P (k, v) -> Forall P l -> Forall P (JsMap.update k v l).
Proof.
  intros Hv. induction 1 as [| [k' v'] l Hx Hl IH]; simpl.
  - constructor; [exact Hv | constructor].
  - destruct (String.eqb_spec k' k) as [-> |]; constructor; assumption.
Qed.

End MapFacts.

Lemma groupSizes_update_new (k : string) (v : list UsageLog.t)
  (l : list (string * list UsageLog.t)) :
  JsMap.lookup k l = None ->
  groupSizes (JsMap.update k v l) = groupSizes l + List.length v.
Proof.
  induction l as [| [k' v'] l IH]; simpl; intros H; [lia |].
  destruct (String.eqb k' k); [discriminate |]. simpl. rewrite (IH H). lia.
Qed.

Lemma groupSizes_update_old (k : string) (old v : list UsageLog.t)
  (l : list (string * list UsageLog.t)) :
  JsMap.lookup k l = Some old ->
  groupSizes (JsMap.update k v l) + List.length old
  = groupSizes l + List.length v.
Proof.
  induction l as [| [k' v'] l IH]; simpl; intros H; [discriminate |].
  destruct (String.eqb k' k); simpl.
  - injection H as ->. lia.
  - specialize (IH H). lia.
Qed.

(** One turn of the loop of [groupBySkill] on a skill entry: the entry
    joins the group of its name, which is created when missing. *)
Lemma groupBySkill_turn (m : UsageLog.t) (groups : JsMap.t (list UsageLog.t)) :
  let skill := Invocation.name (UsageLog.invocation m) in
  let groups1 :=
    if negb (JsMap.has skill groups) then JsMap.set skill [] groups else groups in
  exists old,
    match JsMap.get skill groups1 with
    | Some group => JsMap.set skill (group ++ [m]) groups1
    | None => groups1
    end
    = JsMap.set skill (old ++ [m]) groups
    /\ JsMap.lookup skill (JsMap.mapData groups)
       = (if JsMap.has skill groups then Some old else None)
    /\ (JsMap.has skill groups = false -> old = []).
Proof.
  intros skill groups1. subst groups1. unfold JsMap.has, JsMap.get.
  destruct (JsMap.lookup skill (JsMap.mapData groups)) as [old |] eqn:E; simpl.
  - exists old. rewrite E. repeat split. discriminate.
  - exists []. rewrite lookup_update. unfold JsMap.set. simpl.
    rewrite update_update. repeat split.
Qed.

Lemma groupBySkill_groups (metrics : list UsageLog.t) :
  let groups := JsMap.entries (groupBySkill metrics) in
  groupSizes groups = skillCount metrics
  /\ Forall skillGroup groups
  /\ forall g, In g groups ->
       exists m, In m metrics /\ hasType "skill" m = true
                 /\ Invocation.name (UsageLog.invocation m) = fst g.
Proof.
  unfold groupBySkill, JsMap.entries, skillCount.
  match goal with
  | |- context [fold_left ?f _ _] => set (step := f)
  end.
  assert (Step : forall l acc,
             Forall skillGroup (JsMap.mapData acc) ->
             groupSizes (JsMap.mapData (fold_left step l acc))
             = groupSizes (JsMap.mapData acc)
               + List.length (filter (hasType "skill") l)
             /\ Forall skillGroup (JsMap.mapData (fold_left step l acc))).
  { induction l as [| m l IH]; intros acc Hacc; simpl; [split; [lia | exact Hacc] |].
    destruct (hasType "skill" m) eqn:T.
    - destruct (groupBySkill_turn m acc) as [old [Eturn [Elook Enew]]].
      assert (Estep : step acc m
                      = JsMap.set (Invocation.name (UsageLog.invocation m))
                          (old ++ [m]) acc).
      { unfold step. rewrite T. exact Eturn. }
      rewrite Estep.
      assert (Hold : Forall (fun m' =>
                        hasType "skill" m' = true
                        /\ Invocation.name (UsageLog.invocation m')
                           = Invocation.name (UsageLog.invocation m)) old).
      { destruct (JsMap.has _ acc) eqn:Has.
        - revert Elook Hacc. generalize (JsMap.mapData acc).
          induction l0 as [| [k' v'] l0 IH0]; simpl; [discriminate |].
          intros Elook Hacc. inversion Hacc as [| ? ? [_ Hg] Hrest]; subst.
          destruct (String.eqb_spec k' (Invocation.name (UsageLog.invocation m)))
            as [-> |].
          + injection Elook as <-. exact Hg.
          + apply IH0; assumption.
        - rewrite (Enew eq_refl). constructor. }
      assert (Hnew : Forall skillGroup
                       (JsMap.mapData
                          (JsMap.set (Invocation.name (UsageLog.invocation m))
                             (old ++ [m]) acc))).
      { simpl. apply Forall_update; [| exact Hacc]. split; simpl.
        - destruct old; discriminate.
        - apply Forall_app. split; [exact Hold |]. constructor; [| constructor].
          split; [exact T | reflexivity]. }
      destruct (IH _ Hnew) as [Hsize Hall]. split; [| exact Hall].
      rewrite Hsize. simpl.
      destruct (JsMap.has _ acc).
      + pose proof (groupSizes_update_old _ _ (old ++ [m]) _ Elook) as H.
        rewrite length_app in H. simpl in H. lia.
      + rewrite (groupSizes_update_new _ (old ++ [m]) _ Elook).
        rewrite length_app. simpl. rewrite (Enew eq_refl). simpl. lia.
    - assert (Estep : step acc m = acc) by (unfold step; rewrite T; reflexivity).
      rewrite Estep. apply IH, Hacc. }
  assert (Names : forall l acc,
             (forall g, In g (JsMap.mapData acc) ->
                exists m, In m metrics /\ hasType "skill" m = true
                          /\ Invocation.name (UsageLog.invocation m) = fst g) ->
             (forall m, In m l -> In m metrics) ->
             forall g, In g (JsMap.mapData (fold_left step l acc)) ->
               exists m, In m metrics /\ hasType "skill" m = true
                         /\ Invocation.name (UsageLog.invocation m) = fst g).
  { induction l as [| m l IH]; intros acc Hacc Hl; simpl; [exact Hacc |].
    apply IH; [| intros m' Hm'; apply Hl; now right].
    destruct (hasType "skill" m) eqn:T.
    - destruct (groupBySkill_turn m acc) as [old [Eturn _]].
      assert (Estep : step acc m
                      = JsMap.set (Invocation.name (UsageLog.invocation m))
                          (old ++ [m]) acc).
      { unfold step. rewrite T. exact Eturn. }
      rewrite Estep. simpl. apply Forall_forall. apply Forall_update.
      + exists m. split; [apply Hl; now left | auto].
      + apply Forall_forall. exact Hacc.
    - assert (Estep : step acc m = acc) by (unfold step; rewrite T; reflexivity).
      rewrite Estep. exact Hacc. }
  destruct (Step metrics JsMap.new (Forall_nil _)) as [Hsize Hall].
  split; [exact Hsize |]. split; [exact Hall |].
  apply (Names metrics JsMap.new); [intros g [] | auto].
Qed.

Lemma mapC_patternOf (groups : list (string * list UsageLog.t)) :
  Forall skillGroup groups ->
  exists patterns,
    mapC patternOf groups = Returned patterns
    /\ totalFrequency patterns = groupSizes groups
    /\ map UsagePattern.skill patterns = map fst groups.
Proof.
  induction 1 as [| [skill skillMetrics] groups [Hne _] _ [ps [E [Ht Hs]]]].
  - exists []. repeat split.
  - simpl in Hne. destruct skillMetrics as [| first rest]; [congruence |].
    simpl. rewrite E. simpl. eexists. split; [reflexivity |].
    simpl. rewrite Ht, Hs. split; reflexivity.
Qed.

Lemma totalFrequency_insertSorted (compare : UsagePattern.t -> UsagePattern.t -> Z)
  (x : UsagePattern.t) (l : list UsagePattern.t) :
  totalFrequency (insertSorted compare x l)
  = UsagePattern.frequency x + totalFrequency l.
Proof.
  induction l as [| y l IH]; simpl; [reflexivity |].
  destruct (compare x y >? 0)%Z; simpl; [rewrite IH; lia | reflexivity].
Qed.

Lemma totalFrequency_sort (compare : UsagePattern.t -> UsagePattern.t -> Z)
  (l : list UsagePattern.t) :
  totalFrequency (sort compare l) = totalFrequency l.
Proof.
  induction l as [| x l IH]; simpl; [reflexivity |].
  rewrite totalFrequency_insertSorted, IH. reflexivity.
Qed.

Lemma insertSorted_Sorted (x : UsagePattern.t) (l : list UsagePattern.t) :
  Sorted moreFrequent l ->
  Sorted moreFrequent (insertSorted byFrequencyDesc x l).
Proof.
  induction 1 as [| y l Hl IH Hy]; simpl.
  - repeat constructor.
  - unfold byFrequencyDesc at 1.
    destruct (Z.gtb_spec
                (Z.of_nat (UsagePattern.frequency y)
                 - Z.of_nat (UsagePattern.frequency x)) 0) as [Hgt | Hle].
    + constructor; [exact IH |].
      destruct l as [| z l]; simpl.
      * constructor. unfold moreFrequent. lia.
      * destruct (byFrequencyDesc x z >? 0)%Z; constructor.
        -- inversion Hy; assumption.
        -- unfold moreFrequent. lia.
    + constructor; [constructor; assumption |].
      constructor. unfold moreFrequent. lia.
Qed.

Lemma sort_Sorted (l : list UsagePattern.t) :
  Sorted moreFrequent (sort byFrequencyDesc l).
Proof.
  induction l as [| x l IH]; simpl; [constructor |].
  apply insertSorted_Sorted, IH.
Qed.

(** Over the entries of the [Map] the loop completes, the frequencies add
    up to the number of skill entries, the patterns come in descending
    frequency, and each bears the name of a skill entry of the input. *)
Lemma patterns_over_map_entries (metrics : list UsageLog.t) :
  exists patterns,
    patternsOf (JsMap.entries (groupBySkill metrics)) = Returned patterns
    /\ totalFrequency patterns = skillCount metrics
    /\ Sorted moreFrequent patterns
    /\ forall p, In p patterns ->
         exists m, In m metrics /\ hasType "skill" m = true
                   /\ Invocation.name (UsageLog.invocation m)
                      = UsagePattern.skill p.
Proof.
  destruct (groupBySkill_groups metrics) as [Hsize [Hall Hnames]].
  destruct (mapC_patternOf _ Hall) as [ps [E [Ht Hs]]].
  exists (sort byFrequencyDesc ps). unfold patternsOf. rewrite E. simpl.
  split; [reflexivity |].
  split; [rewrite totalFrequency_sort, Ht; exact Hsize |].
  split; [apply sort_Sorted |].
  intros p Hp. apply sort_In in Hp.
  assert (Hin : In (UsagePattern.skill p) (map fst (JsMap.entries (groupBySkill metrics)))).
  { rewrite <- Hs. apply in_map, Hp. }
  apply in_map_iff in Hin. destruct Hin as [g [Hg Hin]].
  destruct (Hnames g Hin) as [m [Hm [Hty Hname]]].
  exists m. rewrite <- Hg. auto.
Qed.

(** ** The filter in the ordinary case

    For an entry whose timestamp is a valid date, and filters whose
    strings are not empty and whose bounds are valid dates, [matches] is
    the filter of the specification. *)
Lemma matches_satisfiesEvery (host : Host) (entry : UsageLog.t)
  (filters : LogFilters.t) (t : Z) :
  Date_parse host (UsageLog.timestamp entry) = Some t ->
  LogFilters.agent filters <> Some "" ->
  LogFilters.category filters <> Some "" ->
  LogFilters.startTime filters <> Some None ->
  LogFilters.endTime filters <> Some None ->
  matches host entry filters = satisfiesEvery host entry filters.
Proof.
  destruct filters as [fa fs fe fc]. unfold matches, satisfiesEvery, guard.
  simpl. intros -> Ha Hc Hs He.
  assert (Ta : forall a, fa = Some a -> truthyString a = true).
  { intros a ->. apply truthyString_spec. congruence. }
  assert (Tc : forall c, fc = Some c -> truthyString c = true).
  { intros c ->. apply truthyString_spec. congruence. }
  destruct fa as [a |]; [rewrite (Ta a eq_refl) |];
    destruct fc as [c |]; try rewrite (Tc c eq_refl);
    destruct fs as [[u |] |]; try congruence;
    destruct fe as [[v |] |]; try congruence;
    unfold Date_leb, Date_gtb, Date_geb, Date_ltb; simpl;
    repeat match goal with
      | |- context [String.eqb ?x ?y] => destruct (String.eqb x y); simpl
      | |- context [(?x <? ?y)%Z] => destruct (Z.ltb_spec x y); simpl
      | |- context [(?x <=? ?y)%Z] => destruct (Z.leb_spec x y); simpl
      end;
    try reflexivity; try lia;
    exfalso; first [apply Hs; reflexivity | apply He; reflexivity].
Qed.

(** * Further properties of the code *)

(** ** UsageLogger: missing, unreadable and unwritable files *)

(** X1: when the file does not exist, [load] answers with the empty store
    of version 1.0, dated by the clock, and [query] with no entry, whatever
    the filters; neither creates the file. *)
Theorem load_without_file (host : Host) (filters : LogFilters.t) (w : World) :
  file w = Absent ->
  exists w',
    load host w
    = (Returned
         {| UsageLogStore.entries := [];
            UsageLogStore.metadata :=
              {| StoreMetadata.version := "1.0";
                 StoreMetadata.lastUpdated :=
                   Date_toISOString host (clock w (clockReads w)) |} |}, w')
    /\ query host filters w = (Returned [], w')
    /\ file w' = Absent
    /\ idCalls w' = idCalls w.
Proof.
  intros E.
  assert (L : exists w',
             load host w
             = (Returned
                  {| UsageLogStore.entries := [];
                     UsageLogStore.metadata :=
                       {| StoreMetadata.version := "1.0";
                          StoreMetadata.lastUpdated :=
                            Date_toISOString host (clock w (clockReads w)) |} |},
                w')
             /\ file w' = Absent /\ idCalls w' = idCalls w).
  { eexists. split.
    - unfold load, tryCatch, bind, readFile. rewrite E. reflexivity.
    - simpl. auto. }
  destruct L as [w' [L [F I]]]. exists w'.
  split; [exact L |].
  split; [unfold query, bind; rewrite L; reflexivity | auto].
Qed.

Lemma load_without_file_witness :
  exists w',
    query Utc.host Sample.emptyAgent Sample.fresh = (Returned [], w')
    /\ file w' = Absent.
Proof.
  destruct (load_without_file Utc.host Sample.emptyAgent Sample.fresh eq_refl)
    as [w' [_ [H [F _]]]].
  exists w'. split; assumption.
Defined.

(** X2: a file that cannot be read for another reason than its absence, or
    that does not parse, makes [load], [query] and [log] fail with that
    error; the world is left exactly as it was, so [log] neither draws an
    id nor overwrites the file. *)
Theorem unreadable_file_propagates (host : Host) (filters : LogFilters.t)
  (entry : UsageLog.t) (w : World) (error : string) :
  (file w = Present Malformed /\ error = "SyntaxError")
  \/ (file w = Unreadable error /\ error <> "ENOENT") ->
  load host w = (Thrown error, w)
  /\ query host filters w = (Thrown error, w)
  /\ log host entry w = (Thrown error, w).
Proof.
  intros H.
  assert (L : load host w = (Thrown error, w)).
  { unfold load, tryCatch, bind, readFile.
    destruct H as [[E ->] | [E Hne]]; rewrite E; simpl; [reflexivity |].
    destruct (String.eqb_spec error "ENOENT"); [contradiction | reflexivity]. }
  split; [exact L |].
  split; [unfold query, bind; rewrite L; reflexivity |].
  unfold log, bind. rewrite L. reflexivity.
Qed.

Lemma unreadable_file_propagates_witness :
  log Utc.host Sample.build1 Case.corrupt = (Thrown "SyntaxError", Case.corrupt)
  /\ load Utc.host Case.locked = (Thrown "EACCES", Case.locked).
Proof.
  split.
  - apply (unreadable_file_propagates Utc.host LogFilters.none Sample.build1
             Case.corrupt "SyntaxError").
    left. split; reflexivity.
  - apply (unreadable_file_propagates Utc.host LogFilters.none Sample.build1
             Case.locked "EACCES").
    right. split; [reflexivity | discriminate].
Defined.

(** What [log] does to a readable file on a medium that takes the write. *)
Lemma log_writes (host : Host) (entry : UsageLog.t) (w : World) :
  readable w ->
  writeError w = None ->
  exists w1 ts store1,
    log host entry w = (Returned tt, w1)
    /\ file w1 = Present (Document store1)
    /\ UsageLogStore.entries store1
       = map JSON.entry (stored w ++ [UsageLog.stamp (ids w (idCalls w)) ts entry])
    /\ writeError w1 = None
    /\ ids w1 = ids w
    /\ idCalls w1 = S (idCalls w).
Proof.
  intros R Hwrite. unfold stored.
  destruct R as [E | [store E]].
  - do 3 eexists. split.
    { unfold log, load, tryCatch, bind, readFile. rewrite E. simpl.
      unfold writeFile. simpl. rewrite Hwrite. reflexivity. }
    rewrite E. simpl. split; [reflexivity |]. split; [reflexivity |]. auto.
  - do 3 eexists. split.
    { unfold log, bind. rewrite (load_present _ _ _ E).
      unfold generateId, isoNow, save, bind, now, ret, writeFile. simpl.
      rewrite Hwrite. reflexivity. }
    rewrite E. simpl. split; [reflexivity |]. split; [reflexivity |]. auto.
Qed.



(** ** UsageLogger: how the operations compose *)

Lemma stored_present (w : World) (store : UsageLogStore.t) :
  file w = Present (Document store) -> stored w = UsageLogStore.entries store.
Proof. unfold stored. intros ->. reflexivity. Qed.

Lemma sameButStamp_stamped (i ts : string) (entry : UsageLog.t) :
  sameButStamp (JSON.entry (UsageLog.stamp i ts entry)) (JSON.entry entry).
Proof. repeat split. Qed.

(** X4: entries logged one after the other are stored in that order behind
    what the file held, each as its JSON reading and equal to it but for
    [id] and [timestamp], with the ids [generateId] returned, in order. *)
Theorem logAll_in_order (host : Host) (entries : list UsageLog.t) (w : World) :
  readable w ->
  jsonRead w ->
  writeError w = None ->
  exists w' added,
    logAll host entries w = (Returned tt, w')
    /\ stored w' = stored w ++ added
    /\ Forall2 sameButStamp added (map JSON.entry entries)
    /\ idsOf added = map (ids w) (seq (idCalls w) (List.length entries)).
Proof.
  revert w. induction entries as [| e rest IH]; intros w R J Hwrite.
  - exists w, []. rewrite app_nil_r. repeat split. constructor.
  - destruct (log_writes host e w R Hwrite)
      as [w1 [ts [store1 [Hlog [F1 [E1 [W1 [I1 C1]]]]]]]].
    assert (S1 : stored w1
                 = stored w ++ [JSON.entry (UsageLog.stamp (ids w (idCalls w)) ts e)]).
    { rewrite (stored_present _ _ F1), E1, map_app, J. reflexivity. }
    assert (J1 : jsonRead w1).
    { unfold jsonRead. rewrite S1, map_app, J. simpl.
      rewrite JSON_entry_idempotent. reflexivity. }
    destruct (IH w1 (or_intror (ex_intro _ store1 F1)) J1 W1)
      as [w' [added [Hall [Hs [Hsame Hids]]]]].
    exists w', (JSON.entry (UsageLog.stamp (ids w (idCalls w)) ts e) :: added).
    split; [simpl; unfold bind; rewrite Hlog; exact Hall |].
    split; [rewrite Hs, S1, <- app_assoc; reflexivity |].
    split; [constructor; [apply sameButStamp_stamped | exact Hsame] |].
    simpl. rewrite Hids, I1, C1. reflexivity.
Qed.

Lemma logAll_in_order_witness :
  exists w' added,
    logAll Utc.host [Sample.build1; Sample.branch; Sample.build2] Sample.fresh
    = (Returned tt, w')
    /\ stored w' = added
    /\ Forall2 sameButStamp added
         (map JSON.entry [Sample.build1; Sample.branch; Sample.build2])
    /\ idsOf added = ["#"; "#i"; "#ii"].
Proof.
  destruct (logAll_in_order Utc.host
              [Sample.build1; Sample.branch; Sample.build2] Sample.fresh)
    as [w' [added [H1 [H2 [H3 H4]]]]].
  - left. reflexivity.
  - reflexivity.
  - reflexivity.
  - exists w', added. repeat split; assumption.
Defined.

Lemma matches_timeless (host : Host) (e e' : UsageLog.t) (filters : LogFilters.t) :
  timeless filters ->
  UsageLog.agent e = UsageLog.agent e' ->
  UsageLog.invocation e = UsageLog.invocation e' ->
  matches host e filters = matches host e' filters.
Proof.
  intros [Hs He] Ha Hi. unfold matches. rewrite Hs, He, Ha, Hi. reflexivity.
Qed.

(** X5: for filters that bound no time, [query] right after [log] returns
    what it would have returned before, followed by the logged entry, as
    stored, exactly when the entry itself matches the filters. *)
Theorem log_then_query (host : Host) (entry : UsageLog.t)
  (filters : LogFilters.t) (w : World) :
  readable w ->
  jsonRead w ->
  writeError w = None ->
  timeless filters ->
  exists w1 w2 e',
    log host entry w = (Returned tt, w1)
    /\ sameButStamp e' (JSON.entry entry)
    /\ query host filters w1
       = (Returned
            (filter (fun e => matches host e filters) (stored w)
             ++ (if matches host entry filters then [e'] else [])), w2).
Proof.
  intros R J Hwrite T.
  destruct (log_writes host entry w R Hwrite)
    as [w1 [ts [store1 [Hlog [F1 [E1 _]]]]]].
  exists w1, w1, (JSON.entry (UsageLog.stamp (ids w (idCalls w)) ts entry)).
  split; [exact Hlog |]. split; [apply sameButStamp_stamped |].
  unfold query, bind. rewrite (load_present _ _ _ F1). unfold ret.
  rewrite E1, map_app, J, filter_app. simpl.
  rewrite (matches_timeless host
             (JSON.entry (UsageLog.stamp (ids w (idCalls w)) ts entry))
             entry filters T eq_refl eq_refl).
  reflexivity.
Qed.

Lemma log_then_query_witness :
  exists w1 w2 e',
    log Utc.host Sample.build1 (Sample.holding []) = (Returned tt, w1)
    /\ sameButStamp e' (JSON.entry Sample.build1)
    /\ query Utc.host Sample.emptyAgent w1 = (Returned [e'], w2).
Proof.
  destruct (log_then_query Utc.host Sample.build1 Sample.emptyAgent
              (Sample.holding []))
    as [w1 [w2 [e' [H1 [H2 H3]]]]].
  - right. eexists. reflexivity.
  - reflexivity.
  - reflexivity.
  - split; reflexivity.
  - exists w1, w2, e'. repeat split; try apply H2; assumption.
Defined.


(** X7: the filters are conjunctive and independent: an entry matches the
    filters exactly when it matches each of the four taken alone, so
    filtering a list by all of them is filtering it by agent, then by start
    time, then by end time, then by category. *)
Theorem matches_is_conjunction (host : Host) (filters : LogFilters.t) :
  (forall e,
      matches host e filters
      = matches host e (byAgent filters)
        && matches host e (byStart filters)
        && matches host e (byEnd filters)
        && matches host e (byCategory filters))
  /\ forall l,
       filter (fun e => matches host e filters) l
       = filter (fun e => matches host e (byCategory filters))
           (filter (fun e => matches host e (byEnd filters))
              (filter (fun e => matches host e (byStart filters))
                 (filter (fun e => matches host e (byAgent filters)) l))).
Proof.
  assert (H : forall e,
             matches host e filters
             = matches host e (byAgent filters)
               && matches host e (byStart filters)
               && matches host e (byEnd filters)
               && matches host e (byCategory filters)).
  { intros e. unfold matches, byAgent, byStart, byEnd, byCategory. simpl.
    repeat match goal with
      | |- context [guard ?t ?f ?p] => destruct (guard t f p)
      end; reflexivity. }
  split; [exact H |].
  induction l as [| e l IH]; [reflexivity |]. simpl. rewrite H.
  destruct (matches host e (byAgent filters)); simpl; [| exact IH].
  destruct (matches host e (byStart filters)); simpl; [| exact IH].
  destruct (matches host e (byEnd filters)); simpl; [| exact IH].
  destruct (matches host e (byCategory filters)); simpl; rewrite IH; reflexivity.
Qed.

(** ** MetricsCalculator: counts, time range, empty windows *)

Lemma type_counts_general (metrics : list UsageLog.t) :
  List.length (filter (hasType "skill") metrics)
  + List.length (filter (hasType "command") metrics)
  + List.length (filter (hasType "rule") metrics)
  + List.length (filter otherType metrics)
  = List.length metrics.
Proof.
  induction metrics as [| m l IH]; [reflexivity |].
  assert (E : forall ty,
             hasType ty m = String.eqb (Invocation.type (UsageLog.invocation m)) ty)
    by reflexivity.
  simpl. unfold otherType at 1. rewrite !E.
  generalize (Invocation.type (UsageLog.invocation m)). intros ty.
  destruct (String.eqb_spec ty "skill") as [-> | _]; [simpl; lia |].
  destruct (String.eqb_spec ty "command") as [-> | _]; [simpl; lia |].
  destruct (String.eqb_spec ty "rule") as [-> | _]; simpl; lia.
Qed.

(** X8: for any entries, the three type counts and the number of entries
    of any other type add up to [totalInvocations], which is the number of
    entries: an entry of another type is counted in the total only. *)
Theorem type_counts_and_others (host : Host) (g : number)
  (metrics : list UsageLog.t) :
  exists m,
    calculate host (Some g) metrics = Returned m
    /\ ProductivityMetrics.totalInvocations m = List.length metrics
    /\ ProductivityMetrics.skillInvocations m
       + ProductivityMetrics.commandInvocations m
       + ProductivityMetrics.ruleApplications m
       + List.length (filter otherType metrics)
       = ProductivityMetrics.totalInvocations m.
Proof.
  eexists. split; [reflexivity |]. split; [reflexivity |].
  apply type_counts_general.
Qed.

Lemma extremum_valid (pick : Z -> Z -> Z) (t : Z) (ts : list Z) :
  Date_extremum pick (map Some (t :: ts)) = Some (fold_left pick ts t).
Proof.
  simpl. revert t. induction ts as [| u ts IH]; intros t; [reflexivity |].
  simpl. apply IH.
Qed.

Lemma extremum_invalid (pick : Z -> Z -> Z) (l : list Date) :
  In None l -> Date_extremum pick l = None.
Proof.
  assert (Stay : forall l, fold_left
                   (fun acc d' =>
                      match acc, d' with
                      | Some a, Some b => Some (pick a b)
                      | _, _ => None
                      end) l None = None).
  { induction l0 as [| d l0 IH]; [reflexivity | exact IH]. }
  destruct l as [| d l]; [intros [] |]. simpl. revert d.
  induction l as [| d' l IH]; intros d [H | H].
  - subst. reflexivity.
  - destruct H.
  - subst. simpl. apply Stay.
  - simpl. destruct H as [H | H].
    + subst. destruct d; apply Stay.
    + destruct d as [a |], d' as [b |]; try apply Stay.
      apply IH. right. exact H.
Qed.

Lemma fold_min (ts : list Z) (t : Z) :
  let lo := fold_left Z.min ts t in
  In lo (t :: ts) /\ forall u, In u (t :: ts) -> (lo <= u)%Z.
Proof.
  revert t. induction ts as [| v ts IH]; intros t; simpl.
  - split; [auto | intros u [<- | []]; lia].
  - destruct (IH (Z.min t v)) as [Hin Hle]. split.
    + destruct Hin as [H | H]; [| auto].
      rewrite <- H. destruct (Z.min_spec t v) as [[_ ->] | [_ ->]]; auto.
    + intros u [<- | [<- | H]].
      * specialize (Hle (Z.min t v) (or_introl eq_refl)). lia.
      * specialize (Hle (Z.min t v) (or_introl eq_refl)). lia.
      * apply Hle. right. exact H.
Qed.

Lemma fold_max (ts : list Z) (t : Z) :
  let hi := fold_left Z.max ts t in
  In hi (t :: ts) /\ forall u, In u (t :: ts) -> (u <= hi)%Z.
Proof.
  revert t. induction ts as [| v ts IH]; intros t; simpl.
  - split; [auto | intros u [<- | []]; lia].
  - destruct (IH (Z.max t v)) as [Hin Hle]. split.
    + destruct Hin as [H | H]; [| auto].
      rewrite <- H. destruct (Z.max_spec t v) as [[_ ->] | [_ ->]]; auto.
    + intros u [<- | [<- | H]].
      * specialize (Hle (Z.max t v) (or_introl eq_refl)). lia.
      * specialize (Hle (Z.max t v) (or_introl eq_refl)). lia.
      * apply Hle. right. exact H.
Qed.

(** X9: when every timestamp is a valid date and there is an entry,
    [getTimeRange] returns the earliest and the latest of the instants, both
    taken from the input, and their difference as duration. *)
Theorem getTimeRange_bounds (host : Host) (metrics : list UsageLog.t)
  (times : list Z) :
  metrics <> [] ->
  map (fun m => Date_parse host (UsageLog.timestamp m)) metrics = map Some times ->
  exists lo hi,
    start (getTimeRange host metrics) = Some lo
    /\ end_ (getTimeRange host metrics) = Some hi
    /\ In lo times /\ In hi times
    /\ (forall t, In t times -> (lo <= t <= hi)%Z)
    /\ range_duration (getTimeRange host metrics) = ofZ (hi - lo).
Proof.
  intros Hne Hts. unfold getTimeRange. simpl. rewrite Hts.
  destruct times as [| t ts].
  { destruct metrics; [congruence | discriminate]. }
  rewrite !extremum_valid.
  destruct (fold_min ts t) as [Hlo Hmin], (fold_max ts t) as [Hhi Hmax].
  exists (fold_left Z.min ts t), (fold_left Z.max ts t).
  repeat split; auto.
Qed.

Lemma getTimeRange_bounds_witness :
  exists lo hi,
    start (getTimeRange Utc.host [Sample.build2; Sample.build1; Sample.branch])
    = Some lo
    /\ end_ (getTimeRange Utc.host [Sample.build2; Sample.build1; Sample.branch])
       = Some hi
    /\ (hi - lo = 18900000)%Z.
Proof.
  destruct (getTimeRange_bounds Utc.host
              [Sample.build2; Sample.build1; Sample.branch]
              [1736692200000; 1736673300000; 1736676000000]%Z)
    as [lo [hi [H1 [H2 _]]]].
  - discriminate.
  - vm_compute. reflexivity.
  - exists lo, hi. split; [exact H1 |]. split; [exact H2 |].
    vm_compute in H1, H2. injection H1 as <-. injection H2 as <-. reflexivity.
Defined.

(** X10: one entry whose timestamp is no valid date makes the time range
    invalid and [invocationsPerHour] NaN, whatever the other entries. *)
Theorem invalid_timestamp_spoils_rate (host : Host) (g : number)
  (metrics : list UsageLog.t) (bad : UsageLog.t) :
  In bad metrics ->
  Date_parse host (UsageLog.timestamp bad) = None ->
  start (getTimeRange host metrics) = None
  /\ end_ (getTimeRange host metrics) = None
  /\ exists m,
       calculate host (Some g) metrics = Returned m
       /\ ProductivityMetrics.invocationsPerHour m = NaN.
Proof.
  intros Hin Hbad.
  assert (N : In None (map (fun m => Date_parse host (UsageLog.timestamp m)) metrics)).
  { rewrite <- Hbad. apply in_map with (f := fun m => Date_parse host (UsageLog.timestamp m)).
    exact Hin. }
  assert (S0 : start (getTimeRange host metrics) = None)
    by (apply extremum_invalid, N).
  assert (E0 : end_ (getTimeRange host metrics) = None)
    by (apply extremum_invalid, N).
  split; [exact S0 |]. split; [exact E0 |].
  eexists. split; [reflexivity |].
  cbn [ProductivityMetrics.invocationsPerHour].
  unfold calculateInvocationsPerHour.
  assert (D : range_duration (getTimeRange host metrics) = NaN).
  { unfold getTimeRange in *. simpl in *. rewrite S0, E0. reflexivity. }
  rewrite D. destruct (ofNat (List.length metrics)); reflexivity.
Qed.

Lemma invalid_timestamp_spoils_rate_witness :
  exists m,
    calculate Utc.host (Some (ofZ 0)) [Sample.build1; Sample.undated; Sample.build2]
    = Returned m
    /\ ProductivityMetrics.invocationsPerHour m = NaN.
Proof.
  destruct (invalid_timestamp_spoils_rate Utc.host (ofZ 0)
              [Sample.build1; Sample.undated; Sample.build2] Sample.undated)
    as [_ [_ H]].
  - right. left. reflexivity.
  - reflexivity.
  - exact H.
Defined.

(** X11: [compare] does not reject an empty window.  With the identifier
    of [calculate] bound it returns a comparison in which the duration and
    success-rate deltas, raw and in percent, are NaN as soon as the
    baseline or the current sequence is empty. *)
Theorem compare_empty_window (host : Host) (g : number)
  (entries : list UsageLog.t) :
  (exists r,
     compare host (Some g) [] entries = Returned r
     /\ Deltas.duration (BenchmarkComparison.improvements r) = NaN
     /\ Deltas.successRate (BenchmarkComparison.improvements r) = NaN
     /\ Deltas.duration (BenchmarkComparison.percentImprovement r) = NaN
     /\ Deltas.successRate (BenchmarkComparison.percentImprovement r) = NaN)
  /\ (exists r,
        compare host (Some g) entries [] = Returned r
        /\ Deltas.duration (BenchmarkComparison.improvements r) = NaN
        /\ Deltas.successRate (BenchmarkComparison.improvements r) = NaN
        /\ Deltas.duration (BenchmarkComparison.percentImprovement r) = NaN
        /\ Deltas.successRate (BenchmarkComparison.percentImprovement r) = NaN).
Proof.
  assert (SubR : forall x, (x - NaN)%num = NaN) by (destruct x; reflexivity).
  split; eexists; (split; [reflexivity |]);
    cbn [BenchmarkComparison.improvements BenchmarkComparison.percentImprovement
         Deltas.duration Deltas.successRate
         ProductivityMetrics.averageDuration ProductivityMetrics.successRate];
    change (sumDuration [] / ofNat (List.length (@nil UsageLog.t)))%num with NaN;
    change (ofNat (List.length (filter isSuccess (@nil UsageLog.t)))
            / ofNat (List.length (@nil UsageLog.t)) * ofZ 100)%num with NaN;
    rewrite ?SubR; repeat split; reflexivity.
Qed.

(** ** Maps: lookup after update, keys *)

Section MapKeys.

Context {V : Type}.

Lemma lookup_update_other (k k' : string) (v : V) (l : list (string * V)) :
  k <> k' -> JsMap.lookup k (JsMap.update k' v l) = JsMap.lookup k l.
Proof.
  intros Hne. induction l as [| [k0 v0] l IH]; simpl.
  - destruct (String.eqb_spec k' k); [congruence | reflexivity].
  - destruct (String.eqb_spec k0 k') as [-> |]; simpl.
    + destruct (String.eqb_spec k' k); [congruence | reflexivity].
    + destruct (String.eqb k0 k); [reflexivity | exact IH].
Qed.

Lemma keys_update (k : string) (v : V) (l : list (string * V)) :
  map fst (JsMap.update k v l)
  = match JsMap.lookup k l with
    | Some _ => map fst l
    | None => map fst l ++ [k]
    end.
Proof.
  induction l as [| [k0 v0] l IH]; simpl; [reflexivity |].
  destruct (String.eqb k0 k); simpl; [reflexivity |].
  rewrite IH. destruct (JsMap.lookup k l); reflexivity.
Qed.

Lemma lookup_None_keys (k : string) (l : list (string * V)) :
  JsMap.lookup k l = None -> ~ In k (map fst l).
Proof.
  induction l as [| [k0 v0] l IH]; simpl; [tauto |].
  destruct (String.eqb_spec k0 k); [discriminate |].
  intros H [E | Hin]; [congruence | exact (IH H Hin)].
Qed.

Lemma NoDup_keys_update (k : string) (v : V) (l : list (string * V)) :
  NoDup (map fst l) -> NoDup (map fst (JsMap.update k v l)).
Proof.
  intros H. rewrite keys_update.
  destruct (JsMap.lookup k l) eqn:E; [exact H |].
  apply NoDup_app; [exact H | repeat constructor; intros [] |].
  intros a Ha [<- | []]. exact (lookup_None_keys _ _ E Ha).
Qed.

Lemma lookup_In (k : string) (v : V) (l : list (string * V)) :
  JsMap.lookup k l = Some v -> In (k, v) l.
Proof.
  induction l as [| [k0 v0] l IH]; simpl; [discriminate |].
  destruct (String.eqb_spec k0 k) as [-> |].
  - intros [= ->]. now left.
  - intros H. right. exact (IH H).
Qed.

Lemma In_lookup (k : string) (v : V) (l : list (string * V)) :
  NoDup (map fst l) -> In (k, v) l -> JsMap.lookup k l = Some v.
Proof.
  induction l as [| [k0 v0] l IH]; simpl; [intros _ [] |].
  intros Hnd [E | Hin].
  - injection E as -> ->. rewrite String.eqb_refl. reflexivity.
  - inversion Hnd as [| ? ? Hout Hrest]; subst.
    destruct (String.eqb_spec k0 k) as [-> |]; [| exact (IH Hrest Hin)].
    exfalso. apply Hout. change k with (fst (k, v)). apply in_map, Hin.
Qed.

End MapKeys.

(** ** UsageAnalyzer: the groups *)

(** X12: [groupBySkill] files under each name exactly the skill entries of
    that name, in the order of the input; a name without skill entry has no
    group, and no name has two groups. *)
Theorem groupBySkill_by_name (metrics : list UsageLog.t) :
  (forall k,
      JsMap.get k (groupBySkill metrics)
      = match filter (named k) metrics with
        | [] => None
        | group => Some group
        end)
  /\ NoDup (map fst (JsMap.entries (groupBySkill metrics))).
Proof.
  unfold groupBySkill, JsMap.entries, JsMap.get.
  match goal with
  | |- context [fold_left ?f _ _] => set (step := f)
  end.
  assert (Turn : forall m acc,
             hasType "skill" m = true ->
             exists old,
               step acc m
               = JsMap.set (Invocation.name (UsageLog.invocation m)) (old ++ [m]) acc
               /\ JsMap.lookup (Invocation.name (UsageLog.invocation m))
                    (JsMap.mapData acc)
                  = (if JsMap.has (Invocation.name (UsageLog.invocation m)) acc
                     then Some old else None)
               /\ (JsMap.has (Invocation.name (UsageLog.invocation m)) acc = false
                   -> old = [])).
  { intros m acc T. destruct (groupBySkill_turn m acc) as [old [E H]].
    exists old. split; [unfold step; rewrite T; exact E | exact H]. }
  assert (Skip : forall m acc, hasType "skill" m = false -> step acc m = acc).
  { intros m acc T. unfold step. rewrite T. reflexivity. }
  clearbody step. split.
  - intros k.
    assert (G : forall l acc,
               JsMap.lookup k (JsMap.mapData (fold_left step l acc))
               = match JsMap.lookup k (JsMap.mapData acc) with
                 | Some g => Some (g ++ filter (named k) l)
                 | None =>
                     match filter (named k) l with
                     | [] => None
                     | group => Some group
                     end
                 end).
    { induction l as [| m l IH]; intros acc; cbn [fold_left filter].
      - destruct (JsMap.lookup k (JsMap.mapData acc));
          [rewrite app_nil_r |]; reflexivity.
      - rewrite IH.
        destruct (hasType "skill" m) eqn:T.
        + destruct (Turn m acc T) as [old [-> [Look New]]].
          cbn [JsMap.set JsMap.mapData].
          destruct (String.eqb_spec (Invocation.name (UsageLog.invocation m)) k)
            as [E | Hne].
          * assert (Nm : named k m = true)
              by (unfold named; rewrite T, E, String.eqb_refl; reflexivity).
            rewrite Nm. rewrite E in *. rewrite lookup_update, Look.
            destruct (JsMap.has k acc).
            -- rewrite <- app_assoc. reflexivity.
            -- rewrite (New eq_refl). reflexivity.
          * assert (Nm : named k m = false).
            { unfold named. rewrite T. simpl. apply String.eqb_neq. exact Hne. }
            rewrite Nm, lookup_update_other by congruence. reflexivity.
        + assert (Nm : named k m = false) by (unfold named; rewrite T; reflexivity).
          rewrite Nm, (Skip m acc T). reflexivity. }
    rewrite G. reflexivity.
  - assert (G : forall l acc,
               NoDup (map fst (JsMap.mapData acc)) ->
               NoDup (map fst (JsMap.mapData (fold_left step l acc)))).
    { induction l as [| m l IH]; intros acc H; simpl; [exact H |].
      apply IH. destruct (hasType "skill" m) eqn:T.
      - destruct (Turn m acc T) as [old [-> _]]. simpl.
        apply NoDup_keys_update, H.
      - rewrite (Skip m acc T). exact H. }
    apply G. constructor.
Qed.

(** ** Sorting by a descending key *)

Section SortByKey.

Context {A : Type} (key : A -> nat).

Lemma insertSorted_Permutation (compare : A -> A -> Z) (x : A) (l : list A) :
  Permutation (insertSorted compare x l) (x :: l).
Proof.
  induction l as [| y l IH]; simpl; [reflexivity |].
  destruct (compare x y >? 0)%Z; [| reflexivity].
  rewrite IH. apply perm_swap.
Qed.

Lemma sort_Permutation (compare : A -> A -> Z) (l : list A) :
  Permutation (sort compare l) l.
Proof.
  induction l as [| x l IH]; simpl; [reflexivity |].
  rewrite insertSorted_Permutation, IH. reflexivity.
Qed.

Lemma insertSorted_descending (x : A) (l : list A) :
  Sorted (fun a b => key b <= key a) l ->
  Sorted (fun a b => key b <= key a) (insertSorted (descendingBy key) x l).
Proof.
  induction 1 as [| y l Hl IH Hy]; simpl.
  - repeat constructor.
  - unfold descendingBy at 1.
    destruct (Z.gtb_spec (Z.of_nat (key y) - Z.of_nat (key x)) 0) as [Hgt | Hle].
    + constructor; [exact IH |].
      destruct l as [| z l]; simpl.
      * constructor. lia.
      * destruct (descendingBy key x z >? 0)%Z; constructor.
        -- inversion Hy; assumption.
        -- lia.
    + constructor; [constructor; assumption |]. constructor. lia.
Qed.

Lemma sort_descending (l : list A) :
  Sorted (fun a b => key b <= key a) (sort (descendingBy key) l).
Proof.
  induction l as [| x l IH]; simpl; [constructor |].
  apply insertSorted_descending, IH.
Qed.

Lemma insertSorted_stable (n : nat) (x : A) (l : list A) :
  filter (fun a => Nat.eqb (key a) n) (insertSorted (descendingBy key) x l)
  = filter (fun a => Nat.eqb (key a) n) (x :: l).
Proof.
  induction l as [| y l IH]; [reflexivity |].
  cbn [insertSorted]. unfold descendingBy at 1.
  destruct (Z.gtb_spec (Z.of_nat (key y) - Z.of_nat (key x)) 0) as [Hgt | Hle];
    [| reflexivity].
  cbn [filter] in *. rewrite IH.
  destruct (Nat.eqb_spec (key x) n), (Nat.eqb_spec (key y) n);
    try reflexivity. lia.
Qed.

Lemma sort_stable (n : nat) (l : list A) :
  filter (fun a => Nat.eqb (key a) n) (sort (descendingBy key) l)
  = filter (fun a => Nat.eqb (key a) n) l.
Proof.
  induction l as [| x l IH]; [reflexivity |].
  cbn [sort]. rewrite insertSorted_stable. cbn [filter]. rewrite IH. reflexivity.
Qed.

Lemma descending_cross (l1 l2 : list A) :
  Sorted (fun a b => key b <= key a) (l1 ++ l2) ->
  Sorted (fun a b => key b <= key a) l1
  /\ forall x y, In x l1 -> In y l2 -> key y <= key x.
Proof.
  intros H. apply Sorted_StronglySorted in H; [| intros a b c; lia].
  induction l1 as [| a l1 IH]; simpl in *.
  - split; [constructor | intros x y []].
  - inversion H as [| ? ? Hs Hall]; subst.
    destruct (IH Hs) as [S1 C1]. split.
    + constructor; [exact S1 |].
      destruct l1 as [| b l1]; constructor.
      rewrite Forall_forall in Hall. apply Hall. now left.
    + intros x y [<- | Hx] Hy.
      * rewrite Forall_forall in Hall. apply Hall, in_or_app. now right.
      * exact (C1 x y Hx Hy).
Qed.

End SortByKey.

(** X13: the sort that ends [analyzePatterns] and the sort of
    [getTopSkills] keep the elements, put them in descending order of
    frequency, respectively of count, and leave elements of equal
    frequency or count in the order they had. *)
Theorem sort_descending_stable :
  (forall patterns : list UsagePattern.t,
      Permutation (sort byFrequencyDesc patterns) patterns
      /\ Sorted moreFrequent (sort byFrequencyDesc patterns)
      /\ forall n,
           filter (fun p => Nat.eqb (UsagePattern.frequency p) n)
             (sort byFrequencyDesc patterns)
           = filter (fun p => Nat.eqb (UsagePattern.frequency p) n) patterns)
  /\ (forall counts : list (string * nat),
        Permutation (sort byCountDesc counts) counts
        /\ Sorted moreCounted (sort byCountDesc counts)
        /\ forall n,
             filter (fun c => Nat.eqb (snd c) n) (sort byCountDesc counts)
             = filter (fun c => Nat.eqb (snd c) n) counts).
Proof.
  split.
  - intros patterns. split; [apply sort_Permutation |].
    split; [exact (sort_descending UsagePattern.frequency patterns) |].
    intros n. exact (sort_stable UsagePattern.frequency n patterns).
  - intros counts. split; [apply sort_Permutation |].
    split; [exact (sort_descending snd counts) |].
    intros n. exact (sort_stable snd n counts).
Qed.

(** ** ReportGenerator: the top skills *)

Lemma countSkills_by_name (metrics : list UsageLog.t) :
  (forall k,
      JsMap.get k (countSkills metrics)
      = match invocations k metrics with
        | O => None
        | S n => Some (S n)
        end)
  /\ NoDup (map fst (JsMap.entries (countSkills metrics))).
Proof.
  unfold countSkills, JsMap.entries, JsMap.get, invocations.
  match goal with
  | |- context [fold_left ?f _ _] => set (step := f)
  end.
  assert (Turn : forall m acc,
             hasType "skill" m = true ->
             step acc m
             = JsMap.set (Invocation.name (UsageLog.invocation m))
                 (match JsMap.lookup (Invocation.name (UsageLog.invocation m))
                          (JsMap.mapData acc) with
                  | Some c => c
                  | None => 0
                  end + 1) acc).
  { intros m acc T. unfold step. rewrite T. reflexivity. }
  assert (Skip : forall m acc, hasType "skill" m = false -> step acc m = acc).
  { intros m acc T. unfold step. rewrite T. reflexivity. }
  clearbody step. split.
  - intros k.
    assert (G : forall l acc,
               JsMap.lookup k (JsMap.mapData (fold_left step l acc))
               = match JsMap.lookup k (JsMap.mapData acc) with
                 | Some c => Some (c + List.length (filter (named k) l))
                 | None =>
                     match List.length (filter (named k) l) with
                     | O => None
                     | S n => Some (S n)
                     end
                 end).
    { induction l as [| m l IH]; intros acc; cbn [fold_left filter].
      - destruct (JsMap.lookup k (JsMap.mapData acc)); simpl;
          [rewrite Nat.add_0_r |]; reflexivity.
      - rewrite IH.
        destruct (hasType "skill" m) eqn:T.
        + rewrite (Turn m acc T). cbn [JsMap.set JsMap.mapData].
          destruct (String.eqb_spec (Invocation.name (UsageLog.invocation m)) k)
            as [E | Hne].
          * assert (Nm : named k m = true)
              by (unfold named; rewrite T, E, String.eqb_refl; reflexivity).
            rewrite Nm, E, lookup_update. cbn [List.length].
            destruct (JsMap.lookup k (JsMap.mapData acc)); f_equal; lia.
          * assert (Nm : named k m = false).
            { unfold named. rewrite T. simpl. apply String.eqb_neq. exact Hne. }
            rewrite Nm, lookup_update_other by congruence. reflexivity.
        + assert (Nm : named k m = false) by (unfold named; rewrite T; reflexivity).
          rewrite Nm, (Skip m acc T). reflexivity. }
    rewrite G. reflexivity.
  - assert (G : forall l acc,
               NoDup (map fst (JsMap.mapData acc)) ->
               NoDup (map fst (JsMap.mapData (fold_left step l acc)))).
    { induction l as [| m l IH]; intros acc H; simpl; [exact H |].
      apply IH. destruct (hasType "skill" m) eqn:T.
      - rewrite (Turn m acc T). simpl. apply NoDup_keys_update, H.
      - rewrite (Skip m acc T). exact H. }
    apply G. constructor.
Qed.

(** X14: [getTopSkills] returns at most [topN] pairs, in descending order
    of count, no skill twice; the count of a listed skill is the number of
    skill entries of that name and is not zero; and no skill left out was
    invoked more often than a listed one. *)
Theorem getTopSkills_spec (metrics : list UsageLog.t) (topN : nat) :
  let top := getTopSkills metrics topN in
  List.length top <= topN
  /\ Sorted moreCounted top
  /\ NoDup (map fst top)
  /\ (forall k c, In (k, c) top -> c = invocations k metrics /\ 0 < c)
  /\ (forall k c k', In (k, c) top -> ~ In k' (map fst top) ->
                     invocations k' metrics <= c).
Proof.
  intros top. subst top. unfold getTopSkills, slice0.
  destruct (countSkills_by_name metrics) as [Hget Hnd].
  set (all := JsMap.entries (countSkills metrics)) in *.
  set (sorted := sort byCountDesc all).
  assert (Hperm : Permutation sorted all) by apply sort_Permutation.
  assert (Hsorted : Sorted moreCounted (firstn topN sorted ++ skipn topN sorted)).
  { rewrite firstn_skipn. exact (sort_descending snd all). }
  destruct (descending_cross snd _ _ Hsorted) as [Hfirst Hcross].
  assert (Hall : forall k c, In (k, c) all -> c = invocations k metrics /\ 0 < c).
  { intros k c Hin. apply (In_lookup _ _ _ Hnd) in Hin.
    unfold all, JsMap.entries in Hin. unfold JsMap.get in Hget.
    rewrite Hget in Hin. destruct (invocations k metrics); [discriminate |].
    injection Hin as <-. split; [reflexivity | lia]. }
  assert (Hin_first : forall x, In x (firstn topN sorted) -> In x all).
  { intros x Hx. apply (Permutation_in _ Hperm).
    rewrite <- (firstn_skipn topN sorted). apply in_or_app. now left. }
  split; [apply firstn_le_length |].
  split; [exact Hfirst |].
  split.
  { rewrite <- firstn_map.
    assert (N : NoDup (map fst sorted)).
    { apply (Permutation_NoDup (l := map fst all)); [| exact Hnd].
      apply Permutation_map. symmetry. exact Hperm. }
    rewrite <- (firstn_skipn topN (map fst sorted)) in N.
    exact (NoDup_app_remove_r _ _ N). }
  split; [intros k c H; apply Hall, Hin_first, H |].
  intros k c k' Hin Hout.
  destruct (invocations k' metrics) as [| n] eqn:E; [lia |].
  assert (Hk' : In (k', S n) sorted).
  { apply (Permutation_in _ (Permutation_sym Hperm)). apply lookup_In.
    unfold all, JsMap.entries. unfold JsMap.get in Hget. rewrite Hget, E.
    reflexivity. }
  rewrite <- (firstn_skipn topN sorted) in Hk'.
  apply in_app_or in Hk'. destruct Hk' as [Hk' | Hk'].
  - exfalso. apply Hout. change k' with (fst (k', S n)). apply in_map, Hk'.
  - exact (Hcross (k, c) (k', S n) Hin Hk').
Qed.

(** ** ReportGenerator: the daily summary *)

Lemma query_readable (host : Host) (filters : LogFilters.t) (w : World) :
  readable w ->
  exists w',
    query host filters w
    = (Returned (filter (fun e => matches host e filters) (stored w)), w').
Proof.
  intros [E | [store E]]; unfold stored; rewrite E.
  - eexists. unfold query, load, tryCatch, bind, readFile. rewrite E. reflexivity.
  - eexists. unfold query, bind. rewrite (load_present _ _ _ E). reflexivity.
Qed.

Lemma generateDailySummary_unfold (host : Host) (scope : option number)
  (date : Date) (w : World) :
  readable w ->
  let metrics := entriesOfDay host date w in
  let topSkills := getTopSkills metrics 5 in
  let startOfDay := option_map (Date_startOfLocalDay host) date in
  fst (generateDailySummary host scope date w)
  = bindC (calculate host scope metrics) (fun summary =>
    bindC (toISOString host startOfDay) (fun iso =>
    bindC (generateInsights summary topSkills) (fun insights =>
    Returned
      {| DailySummary.date := hd "" (split "T" iso);
         DailySummary.totalInvocations := ProductivityMetrics.totalInvocations summary;
         DailySummary.skillInvocations := ProductivityMetrics.skillInvocations summary;
         DailySummary.commandInvocations := ProductivityMetrics.commandInvocations summary;
         DailySummary.ruleApplications := ProductivityMetrics.ruleApplications summary;
         DailySummary.averageDuration := ProductivityMetrics.averageDuration summary;
         DailySummary.successRate := ProductivityMetrics.successRate summary;
         DailySummary.topSkills := topSkills;
         DailySummary.insights := insights |}))).
Proof.
  intros R metrics topSkills startOfDay.
  destruct (query_readable host (dayFilters host date) w R) as [w' Q].
  unfold generateDailySummary. cbv zeta. unfold bind at 1.
  unfold dayFilters in Q. cbv zeta in Q. rewrite Q.
  fold (dayFilters host date). fold (entriesOfDay host date w). fold metrics.
  unfold bind, liftC, ret.
  destruct (calculate host scope metrics) as [summary |]; [| reflexivity].
  cbn [bindC]. fold startOfDay.
  destruct (toISOString host startOfDay) as [iso |]; [| reflexivity].
  cbn [bindC]. fold topSkills.
  destruct (generateInsights summary topSkills); reflexivity.
Qed.

(** X15: the summary depends on the file only through the entries of the
    day: two readable stores with the same entries in the window of the
    date give the same result, summary or error. *)
Theorem summary_of_the_day_only (host : Host) (scope : option number)
  (date : Date) (w1 w2 : World) :
  readable w1 ->
  readable w2 ->
  entriesOfDay host date w1 = entriesOfDay host date w2 ->
  fst (generateDailySummary host scope date w1)
  = fst (generateDailySummary host scope date w2).
Proof.
  intros R1 R2 E.
  rewrite (generateDailySummary_unfold host scope date w1 R1).
  rewrite (generateDailySummary_unfold host scope date w2 R2).
  cbv zeta. rewrite E. reflexivity.
Qed.

Lemma summary_of_the_day_only_witness :
  fst (generateDailySummary Utc.host (Some (ofZ 0)) Day.noon
         (Sample.holding [Day.eve; Sample.build1; Sample.branch]))
  = fst (generateDailySummary Utc.host (Some (ofZ 0)) Day.noon
           (Sample.holding [Sample.build1; Sample.branch])).
Proof.
  apply summary_of_the_day_only.
  - right. eexists. reflexivity.
  - right. eexists. reflexivity.
  - vm_compute. reflexivity.
Defined.

(** X16: for an invalid date, on a readable store and with the
    identifier of [calculate] bound, [generateDailySummary] fails with the
    RangeError of [toISOString]; it returns no summary. *)
Theorem summary_of_invalid_date (host : Host) (g : number) (w : World) :
  readable w ->
  fst (generateDailySummary host (Some g) None w) = Thrown "RangeError".
Proof.
  intros R. rewrite (generateDailySummary_unfold host (Some g) None w R).
  reflexivity.
Qed.

Lemma summary_of_invalid_date_witness :
  fst (generateDailySummary Utc.host (Some (ofZ 0)) None
         (Sample.holding [Sample.build1]))
  = Thrown "RangeError".
Proof.
  apply summary_of_invalid_date. right. eexists. reflexivity.
Defined.

(** X17: for a valid date, on a readable store with a skill entry in the
    window of the date and with the identifier of [calculate] bound,
    [generateDailySummary] returns a summary: its total is the number of
    entries of the day, its top skills are those of the day, its date is
    the part of [toISOString] of local midnight before the [T], and its
    insights end with the most used skill, the head of the top skills. *)
Theorem summary_of_a_day_with_skills (host : Host) (g : number) (d : Z)
  (w : World) :
  readable w ->
  skillCount (entriesOfDay host (Some d) w) <> 0 ->
  exists summary skill count rest before,
    fst (generateDailySummary host (Some g) (Some d) w) = Returned summary
    /\ DailySummary.totalInvocations summary
       = List.length (entriesOfDay host (Some d) w)
    /\ DailySummary.topSkills summary
       = getTopSkills (entriesOfDay host (Some d) w) 5
    /\ DailySummary.topSkills summary = (skill, count) :: rest
    /\ DailySummary.insights summary = before ++ [MostUsedSkill skill count]
    /\ DailySummary.date summary
       = hd "" (split "T" (Date_toISOString host (Date_startOfLocalDay host d))).
Proof.
  intros R Hskill.
  destruct (getTopSkills_nonempty _ Hskill) as [skill [count [rest Etop]]].
  rewrite (generateDailySummary_unfold host (Some g) (Some d) w R). cbv zeta.
  unfold calculate. cbn [bindC option_map toISOString].
  rewrite Etop, generateInsights_shape. cbn [bindC].
  eexists. exists skill, count, rest. eexists.
  split; [reflexivity |].
  cbn [DailySummary.totalInvocations DailySummary.topSkills
       DailySummary.insights DailySummary.date
       ProductivityMetrics.totalInvocations].
  split; [reflexivity |]. split; [reflexivity |]. split; [reflexivity |].
  split; [| reflexivity].
  rewrite !app_assoc. reflexivity.
Qed.

Lemma summary_of_a_day_with_skills_witness :
  exists summary before,
    fst (generateDailySummary Utc.host (Some (ofZ 0)) Day.noon
           (Sample.holding [Day.eve; Sample.build1; Sample.branch; Sample.build2]))
    = Returned summary
    /\ DailySummary.totalInvocations summary = 3
    /\ DailySummary.date summary = "2025-01-12"
    /\ DailySummary.insights summary = before ++ [MostUsedSkill "build" 2].
Proof.
  destruct (summary_of_a_day_with_skills Utc.host (ofZ 0) 1736683200000%Z
              (Sample.holding [Day.eve; Sample.build1; Sample.branch; Sample.build2]))
    as [summary [skill [count [rest [before [H1 [H2 [H3 [H4 [H5 H6]]]]]]]]]].
  - right. eexists. reflexivity.
  - vm_compute. discriminate.
  - exists summary, before. split; [exact H1 |].
    split; [rewrite H2; vm_compute; reflexivity |].
    split; [rewrite H6; vm_compute; reflexivity |].
    rewrite H3 in H4. vm_compute in H4. injection H4 as <- <- _. exact H5.
Defined.

(** ** OpencodeUsageTracker *)

(** X18: [categorizeSkill] answers with one of six categories for every
    skill that is not the name of a member of [Object.prototype]: the
    category of the table for the twelve skills listed, [other] for every
    other skill; for the name of such a member it answers with the
    inherited member, which is no category. *)
Theorem categorizeSkill_range (skill : string) :
  match categorizeSkill skill with
  | Category c =>
      ~ In skill Object_prototype
      /\ In c ["code-analysis"; "code-review"; "file-operations";
               "external-research"; "testing"; "other"]
      /\ (c = "other" <-> JsMap.lookup skill categoryMap = None)
      /\ (forall c', JsMap.lookup skill categoryMap = Some c' -> c = c')
  | Inherited member =>
      member = skill /\ In skill Object_prototype
      /\ JsMap.lookup skill categoryMap = None
  end.
Proof.
  unfold categorizeSkill.
  destruct (JsMap.lookup skill categoryMap) as [c |] eqn:L.
  - pose proof (lookup_In _ _ _ L) as Hin. simpl in Hin.
    repeat (destruct Hin as [Hin | Hin];
            [injection Hin as <- <-; simpl;
             (split; [intros H; repeat (destruct H as [H | H]; [discriminate |]);
                      exact H |]);
             (split; [tauto |]);
             (split; [split; discriminate | intros c' [= <-]; reflexivity]) |]).
    destruct Hin.
  - destruct (existsb (String.eqb skill) Object_prototype) eqn:E.
    + split; [reflexivity |]. split; [| reflexivity].
      apply existsb_exists in E. destruct E as [x [Hx Ex]].
      apply String.eqb_eq in Ex. subst x. exact Hx.
    + split.
      * intros Hin.
        assert (existsb (String.eqb skill) Object_prototype = true).
        { apply existsb_exists. exists skill. split; [exact Hin |].
          apply String.eqb_refl. }
        congruence.
      * split; [simpl; tauto |]. split; [tauto | discriminate].
Qed.

Section TrackerFacts.

Variable host : Host.
Variable cwd : string.


Lemma log_appends (entry : UsageLog.t) (w : World) :
  readable w ->
  jsonRead w ->
  writeError w = None ->
  exists w1 e',
    log host entry w = (Returned tt, w1)
    /\ stored w1 = stored w ++ [e']
    /\ sameButStamp e' (JSON.entry entry)
    /\ readable w1 /\ jsonRead w1 /\ writeError w1 = None.
Proof.
  intros R J Hwrite.
  destruct (log_writes host entry w R Hwrite)
    as [w1 [ts [store1 [Hlog [F1 [E1 [W1 _]]]]]]].
  assert (S1 : stored w1
               = stored w ++ [JSON.entry (UsageLog.stamp (ids w (idCalls w)) ts entry)]).
  { rewrite (stored_present _ _ F1), E1, map_app, J. reflexivity. }
  exists w1, (JSON.entry (UsageLog.stamp (ids w (idCalls w)) ts entry)).
  split; [exact Hlog |]. split; [exact S1 |].
  split; [apply sameButStamp_stamped |].
  split; [right; eexists; exact F1 |].
  split; [| exact W1].
  unfold jsonRead. rewrite S1, map_app, J. simpl.
  rewrite JSON_entry_idempotent. reflexivity.
Qed.

(** [afterExecution] on a tracker whose current task is unset or is
    the empty string returns at once: nothing is logged and the tracker and
    the world are as they were. *)
Theorem afterExecution_unarmed (skill : string) (success : bool)
  (duration : number) (tokensUsed : option number) (t : Tracker) (w : World) :
  armed t = false ->
  afterExecution host cwd skill success duration tokensUsed t w
  = Some (Returned tt, t, w).
Proof.
  unfold armed, afterExecution.
  destruct (currentTask t) as [task |]; [| reflexivity].
  intros ->. reflexivity.
Qed.

(** X19: for a skill with a category and a task that is not empty, on a
    readable store that takes the writes, [beforeExecution] followed by
    [afterExecution] stores two entries behind those already there: first
    the start, with [success] false and duration 0, then the completion
    with the outcome given, both under the task of [beforeExecution]; the
    current task is unset at the end. *)
Theorem tracked_execution (skill category task : string) (success : bool)
  (duration : number) (tokensUsed : option number) (t : Tracker) (w : World) :
  categorizeSkill skill = Category category ->
  task <> "" ->
  readable w ->
  jsonRead w ->
  writeError w = None ->
  exists t1 w1 t2 w2 e1 e2,
    beforeExecution host cwd skill task t w = Some (Returned tt, t1, w1)
    /\ afterExecution host cwd skill success duration tokensUsed t1 w1
       = Some (Returned tt, t2, w2)
    /\ currentTask t1 = Some task
    /\ currentTask t2 = None
    /\ stored w2 = stored w ++ [e1; e2]
    /\ sameButStamp e1
         (JSON.entry
            (trackedEntry cwd skill category task
               {| Outcome.success := false; Outcome.duration := Number (ofZ 0);
                  Outcome.tokensUsed := Undefined; Outcome.cost := Undefined |}))
    /\ sameButStamp e2
         (JSON.entry
            (trackedEntry cwd skill category task
               {| Outcome.success := success; Outcome.duration := Number duration;
                  Outcome.tokensUsed :=
                    match tokensUsed with
                    | Some n => Number n
                    | None => Undefined
                    end;
                  Outcome.cost := Undefined |})).
Proof.
  intros C Htask R J Hwrite.
  destruct (log_appends
              (trackedEntry cwd skill category task
                 {| Outcome.success := false; Outcome.duration := Number (ofZ 0);
                    Outcome.tokensUsed := Undefined; Outcome.cost := Undefined |})
              w R J Hwrite)
    as [w1 [e1 [L1 [S1 [B1 [R1 [J1 W1]]]]]]].
  destruct (log_appends
              (trackedEntry cwd skill category task
                 {| Outcome.success := success; Outcome.duration := Number duration;
                    Outcome.tokensUsed :=
                      match tokensUsed with
                      | Some n => Number n
                      | None => Undefined
                      end;
                    Outcome.cost := Undefined |})
              w1 R1 J1 W1)
    as [w2 [e2 [L2 [S2 [B2 _]]]]].
  exists {| currentTask := Some task |}, w1, {| currentTask := None |}, w2, e1, e2.
  split; [unfold beforeExecution; rewrite C, L1; reflexivity |].
  split.
  { unfold afterExecution. cbn [currentTask].
    apply truthyString_spec in Htask. rewrite Htask, C, L2. reflexivity. }
  split; [reflexivity |]. split; [reflexivity |].
  split; [rewrite S2, S1, <- app_assoc; reflexivity |].
  split; assumption.
Qed.

(** X20: [beforeExecution] with the empty string as task stores the start
    but leaves the tracker unarmed: the [afterExecution] that follows
    stores nothing, so the completion of that execution is never
    recorded. *)
Theorem empty_task_loses_completion (skill category : string) (success : bool)
  (duration : number) (tokensUsed : option number) (t : Tracker) (w : World) :
  categorizeSkill skill = Category category ->
  readable w ->
  jsonRead w ->
  writeError w = None ->
  exists t1 w1 e1,
    beforeExecution host cwd skill "" t w = Some (Returned tt, t1, w1)
    /\ stored w1 = stored w ++ [e1]
    /\ afterExecution host cwd skill success duration tokensUsed t1 w1
       = Some (Returned tt, t1, w1).
Proof.
  intros C R J Hwrite.
  destruct (log_appends
              (trackedEntry cwd skill category ""
                 {| Outcome.success := false; Outcome.duration := Number (ofZ 0);
                    Outcome.tokensUsed := Undefined; Outcome.cost := Undefined |})
              w R J Hwrite)
    as [w1 [e1 [L1 [S1 _]]]].
  exists {| currentTask := Some "" |}, w1, e1.
  split; [unfold beforeExecution; rewrite C, L1; reflexivity |].
  split; [exact S1 | reflexivity].
Qed.


End TrackerFacts.

Lemma afterExecution_unarmed_witness :
  afterExecution Utc.host "/work" "run-tests" true (ofZ 1200) None
    {| currentTask := Some "" |} Sample.fresh
  = Some (Returned tt, {| currentTask := Some "" |}, Sample.fresh).
Proof.
  apply afterExecution_unarmed. reflexivity.
Defined.

Lemma tracked_execution_witness :
  exists t1 w1 t2 w2 e1 e2,
    beforeExecution Utc.host "/work" "run-tests" "Implement feature"
      {| currentTask := None |} Sample.fresh
    = Some (Returned tt, t1, w1)
    /\ afterExecution Utc.host "/work" "run-tests" true (ofZ 1200)
         (Some (ofZ 1500)) t1 w1
       = Some (Returned tt, t2, w2)
    /\ currentTask t2 = None
    /\ stored w2 = [e1; e2]
    /\ Invocation.category (UsageLog.invocation e1) = "testing"
    /\ Outcome.success (UsageLog.outcome e2) = true.
Proof.
  destruct (tracked_execution Utc.host "/work" "run-tests" "testing"
              "Implement feature" true (ofZ 1200) (Some (ofZ 1500))
              {| currentTask := None |} Sample.fresh)
    as [t1 [w1 [t2 [w2 [e1 [e2 [H1 [H2 [_ [H4 [H5 [H6 H7]]]]]]]]]]]].
  - reflexivity.
  - discriminate.
  - left. reflexivity.
  - reflexivity.
  - reflexivity.
  - exists t1, w1, t2, w2, e1, e2.
    split; [exact H1 |]. split; [exact H2 |]. split; [exact H4 |].
    split; [exact H5 |].
    destruct H6 as [_ [I1 _]], H7 as [_ [_ [_ [O2 _]]]].
    split; [rewrite I1 | rewrite O2]; reflexivity.
Defined.

Lemma empty_task_loses_completion_witness :
  exists t1 w1 e1,
    beforeExecution Utc.host "/work" "blender" "" {| currentTask := None |}
      Sample.fresh
    = Some (Returned tt, t1, w1)
    /\ stored w1 = [e1]
    /\ afterExecution Utc.host "/work" "blender" true (ofZ 1200) None t1 w1
       = Some (Returned tt, t1, w1).
Proof.
  destruct (empty_task_loses_completion Utc.host "/work" "blender" "other"
              true (ofZ 1200) None {| currentTask := None |} Sample.fresh)
    as [t1 [w1 [e1 H]]].
  - reflexivity.
  - left. reflexivity.
  - reflexivity.
  - reflexivity.
  - exists t1, w1, e1. exact H.
Defined.

